(** * QuickPHP: a shallow embedding of [src/extension.ts]

    The extension reacts to editor notifications, debounces them with one
    timer, runs the PHP interpreter on a file and shows the result as an
    end-of-line decoration.  The embedding keeps the three module-level
    variables of the source ([currentDecorationType], [errorDecorationType],
    [timeout]) next to a model of the host objects the code talks to
    (editors, settings store, timers, child processes, file system,
    decorations, messages), and writes every function of the source as a
    computation over that world. *)

From Stdlib Require Import ZArith NArith Ascii String List Bool Lia.
From stdpp Require Import base option list strings functions gmap.
Import ListNotations.

Local Open Scope Z_scope.

(** ** JavaScript strings

    A JavaScript string is a sequence of UTF-16 code units; [trim],
    [startsWith], [includes] and [replace] all work on code units. *)

Module JS.

Abbreviation jsstring := (list N).

(** A literal of the source, read as code units (the literals of
    [extension.ts] are ASCII). *)
Fixpoint lit (s : string) : jsstring :=
  match s with
  | EmptyString => []
  | String a s' => N_of_ascii a :: lit s'
  end.
Arguments lit s%_string.

(** ECMAScript WhiteSpace and LineTerminator code points, the set that
    [String.prototype.trim] strips. *)
Definition isWhiteSpace (c : N) : bool :=
  ((9 <=? c) && (c <=? 13) || (c =? 32) || (c =? 160) || (c =? 5760)
   || (8192 <=? c) && (c <=? 8202) || (c =? 8232) || (c =? 8233)
   || (c =? 8239) || (c =? 8287) || (c =? 12288) || (c =? 65279))%N.

Fixpoint trimStart (s : jsstring) : jsstring :=
  match s with
  | [] => []
  | c :: s' => if isWhiteSpace c then trimStart s' else s
  end.

Fixpoint trimEnd (s : jsstring) : jsstring :=
  match s with
  | [] => []
  | c :: s' =>
      match trimEnd s' with
      | [] => if isWhiteSpace c then [] else [c]
      | t => c :: t
      end
  end.

Definition trim (s : jsstring) : jsstring := trimEnd (trimStart s).

Definition code_eqb (a b : N) : bool := (a =? b)%N.

Fixpoint startsWith (s p : jsstring) {struct p} : bool :=
  match p, s with
  | [], _ => true
  | _ :: _, [] => false
  | a :: p', b :: s' => code_eqb a b && startsWith s' p'
  end.

Fixpoint includes (s p : jsstring) : bool :=
  startsWith s p ||
  match s with
  | [] => false
  | _ :: s' => includes s' p
  end.

(** [s.replace(pat, rep)] with a string pattern: only the first occurrence
    is replaced.  The replacement strings of the source contain no [$], so
    the replacement patterns of ECMAScript play no part. *)
Fixpoint replace (s pat rep : jsstring) : jsstring :=
  if startsWith s pat then rep ++ drop (length pat) s
  else match s with
       | [] => []
       | c :: s' => c :: replace s' pat rep
       end.

(** Truthiness of a string: the empty string is the only falsy one. *)
Definition truthy (s : jsstring) : bool :=
  match s with [] => false | _ => true end.

(** [a || b] on strings. *)
Definition or_else (a b : jsstring) : jsstring :=
  if truthy a then a else b.

End JS.
Import JS.


(** ** Numbers: [((endTime - startTime) / 1000).toFixed(2)]

    [Date.now()] returns integer milliseconds, so [endTime - startTime] is an
    integer [d]; the quotient [d / 1000] is the IEEE 754 binary64 number
    nearest to the rational (ties to even), and [toFixed(2)] prints the
    integer [n] nearest to a hundred times that binary64 number (the larger
    one on a tie) with two decimals.  Both roundings are written out on
    integers; the model covers [|d| < 2^53], which every difference of two
    time stamps satisfies. *)

Module Num.

Fixpoint digits (u : Decimal.uint) : jsstring :=
  match u with
  | Decimal.Nil => []
  | Decimal.D0 u => 48%N :: digits u
  | Decimal.D1 u => 49%N :: digits u
  | Decimal.D2 u => 50%N :: digits u
  | Decimal.D3 u => 51%N :: digits u
  | Decimal.D4 u => 52%N :: digits u
  | Decimal.D5 u => 53%N :: digits u
  | Decimal.D6 u => 54%N :: digits u
  | Decimal.D7 u => 55%N :: digits u
  | Decimal.D8 u => 56%N :: digits u
  | Decimal.D9 u => 57%N :: digits u
  end.

(** Decimal rendering of a natural number, without leading zeros. *)
Definition decimal (n : N) : jsstring := digits (N.to_uint n).

(** Numerator and denominator of [(d / 1000) / 2^e]. *)
Definition scaled (d e : Z) : Z * Z :=
  if 0 <=? e then (d, 1000 * 2 ^ e) else (d * 2 ^ (- e), 1000).

Definition roundHalfEven (n dn : Z) : Z :=
  let q := n / dn in
  let r := n mod dn in
  if 2 * r <? dn then q
  else if dn <? 2 * r then q + 1
  else if Z.even q then q else q + 1.

(** The binary64 quotient [d / 1000] for [0 < d], as a pair [(m, e)] that
    stands for [m * 2^e] with a 53-bit [m]. *)
Definition div1000 (d : Z) : Z * Z :=
  let e0 := Z.log2 d - 62 in
  let '(n, dn) := scaled d e0 in
  let e := if n / dn <? 2 ^ 53 then e0 else e0 + 1 in
  let '(n, dn) := scaled d e in
  (roundHalfEven n dn, e).

(** The integer [n] of [Number.prototype.toFixed]: [n / 100] is as close
    as possible to the binary64 number, the larger [n] on a tie. *)
Definition hundredths (d : Z) : Z :=
  if d =? 0 then 0
  else
    let '(m, e) := div1000 d in
    if 0 <=? e then 100 * m * 2 ^ e
    else (200 * m + 2 ^ (- e)) / 2 ^ (1 - e).

Definition twoDigits (n : Z) : jsstring :=
  [Z.to_N (48 + (n / 10) mod 10); Z.to_N (48 + n mod 10)].

(** [(d / 1000).toFixed(2)] for an integer number of milliseconds [d]. *)
Definition toFixed2 (d : Z) : jsstring :=
  let n := hundredths (Z.abs d) in
  (if d <? 0 then [45%N] else [])
    ++ decimal (Z.to_N (n / 100)) ++ [46%N] ++ twoDigits (n mod 100).

End Num.
Import Num.

(** ** The host: editor objects, settings, timers, processes, files *)

Record Position := { line : nat; character : nat }.

Record Selection := { anchor : Position; active : Position }.

(** A text document.  [doc_id] stands for the identity of the object (the
    source compares documents with [===]); [lines] holds the text of each
    line without its terminator. *)
Record TextDocument := {
  doc_id : nat;
  uri_fsPath : jsstring;
  isUntitled : bool;
  lines : list jsstring;
  eol : jsstring
}.

Record TextEditor := { document : TextDocument; selection : Selection }.

(** A value of the settings store, as far as the extension reads it. *)
Inductive Setting :=
| SString (s : jsstring)
| SNumber (n : N).

(** What an [exec] callback receives as its first argument when the
    command failed. *)
Record ExecException := { message : jsstring }.

(** The two arrow functions handed to [exec], with the variables they close
    over. *)
Inductive Callback :=
| LiveCallback (editor currentLine : nat) (filePath : jsstring)
    (isTempFile : bool) (phpPath : jsstring) (startTime : Z)
| BlockCallback (editor : nat) (tempFilePath : jsstring).

Record ChildProcess := { pid : nat; command : jsstring; callback : Callback }.

(** A pending timer of [setTimeout]; its callback closes over [editor]. *)
Record Timer := { timer_id : nat; due : Z; timer_editor : nat }.

(** One rendered decoration: the decoration type it belongs to, the editor
    it is set on, its (empty) range and the [after] attachment. *)
Record Decoration := {
  deco_type : nat;
  deco_editor : nat;
  deco_line : nat;
  deco_character : nat;
  contentText : jsstring;
  color : jsstring
}.

Record DecorationOptions := {
  range_line : nat;
  range_character : nat;
  after_contentText : jsstring;
  after_color : jsstring
}.

Inductive Message :=
| ErrorMessage (text : jsstring)
| InformationMessage (text : jsstring).

Inductive JsError :=
| IllegalLine
| ENOENT (path : jsstring).

(** The first three fields are the module-level variables of
    [extension.ts]; the others are the host.  [evaluations] counts the runs
    of the timer callback of [updateOutput]; the code never reads it. *)
Record World := {
  currentDecorationType : option nat;
  errorDecorationType : option nat;
  timeout : option nat;
  dirname : jsstring;
  now : Z;
  editors : nat -> TextEditor;
  activeTextEditor : option nat;
  settings : gmap string Setting;
  files : gmap jsstring jsstring;
  timers : list Timer;
  nextTimer : nat;
  processes : list ChildProcess;
  nextPid : nat;
  decorations : list Decoration;
  nextDecorationType : nat;
  messages : list Message;
  console : list jsstring;
  evaluations : nat
}.

Definition set_currentDecorationType (v : option nat) (w : World) : World :=
  {| currentDecorationType := v;
     errorDecorationType := errorDecorationType w; timeout := timeout w;
     dirname := dirname w; now := now w; editors := editors w;
     activeTextEditor := activeTextEditor w; settings := settings w;
     files := files w; timers := timers w; nextTimer := nextTimer w;
     processes := processes w; nextPid := nextPid w;
     decorations := decorations w;
     nextDecorationType := nextDecorationType w; messages := messages w;
     console := console w; evaluations := evaluations w |}.

Definition set_errorDecorationType (v : option nat) (w : World) : World :=
  {| currentDecorationType := currentDecorationType w;
     errorDecorationType := v; timeout := timeout w; dirname := dirname w;
     now := now w; editors := editors w;
     activeTextEditor := activeTextEditor w; settings := settings w;
     files := files w; timers := timers w; nextTimer := nextTimer w;
     processes := processes w; nextPid := nextPid w;
     decorations := decorations w;
     nextDecorationType := nextDecorationType w; messages := messages w;
     console := console w; evaluations := evaluations w |}.

Definition set_timeout (v : option nat) (w : World) : World :=
  {| currentDecorationType := currentDecorationType w;
     errorDecorationType := errorDecorationType w; timeout := v;
     dirname := dirname w; now := now w; editors := editors w;
     activeTextEditor := activeTextEditor w; settings := settings w;
     files := files w; timers := timers w; nextTimer := nextTimer w;
     processes := processes w; nextPid := nextPid w;
     decorations := decorations w;
     nextDecorationType := nextDecorationType w; messages := messages w;
     console := console w; evaluations := evaluations w |}.

Definition set_now (v : Z) (w : World) : World :=
  {| currentDecorationType := currentDecorationType w;
     errorDecorationType := errorDecorationType w; timeout := timeout w;
     dirname := dirname w; now := v; editors := editors w;
     activeTextEditor := activeTextEditor w; settings := settings w;
     files := files w; timers := timers w; nextTimer := nextTimer w;
     processes := processes w; nextPid := nextPid w;
     decorations := decorations w;
     nextDecorationType := nextDecorationType w; messages := messages w;
     console := console w; evaluations := evaluations w |}.

Definition set_editors (v : nat -> TextEditor) (w : World) : World :=
  {| currentDecorationType := currentDecorationType w;
     errorDecorationType := errorDecorationType w; timeout := timeout w;
     dirname := dirname w; now := now w; editors := v;
     activeTextEditor := activeTextEditor w; settings := settings w;
     files := files w; timers := timers w; nextTimer := nextTimer w;
     processes := processes w; nextPid := nextPid w;
     decorations := decorations w;
     nextDecorationType := nextDecorationType w; messages := messages w;
     console := console w; evaluations := evaluations w |}.

Definition set_activeTextEditor (v : option nat) (w : World) : World :=
  {| currentDecorationType := currentDecorationType w;
     errorDecorationType := errorDecorationType w; timeout := timeout w;
     dirname := dirname w; now := now w; editors := editors w;
     activeTextEditor := v; settings := settings w; files := files w;
     timers := timers w; nextTimer := nextTimer w; processes := processes w;
     nextPid := nextPid w; decorations := decorations w;
     nextDecorationType := nextDecorationType w; messages := messages w;
     console := console w; evaluations := evaluations w |}.

Definition set_settings (v : gmap string Setting) (w : World) : World :=
  {| currentDecorationType := currentDecorationType w;
     errorDecorationType := errorDecorationType w; timeout := timeout w;
     dirname := dirname w; now := now w; editors := editors w;
     activeTextEditor := activeTextEditor w; settings := v; files := files w;
     timers := timers w; nextTimer := nextTimer w; processes := processes w;
     nextPid := nextPid w; decorations := decorations w;
     nextDecorationType := nextDecorationType w; messages := messages w;
     console := console w; evaluations := evaluations w |}.

Definition set_files (v : gmap jsstring jsstring) (w : World) : World :=
  {| currentDecorationType := currentDecorationType w;
     errorDecorationType := errorDecorationType w; timeout := timeout w;
     dirname := dirname w; now := now w; editors := editors w;
     activeTextEditor := activeTextEditor w; settings := settings w;
     files := v; timers := timers w; nextTimer := nextTimer w;
     processes := processes w; nextPid := nextPid w;
     decorations := decorations w;
     nextDecorationType := nextDecorationType w; messages := messages w;
     console := console w; evaluations := evaluations w |}.

Definition set_timers (v : list Timer) (w : World) : World :=
  {| currentDecorationType := currentDecorationType w;
     errorDecorationType := errorDecorationType w; timeout := timeout w;
     dirname := dirname w; now := now w; editors := editors w;
     activeTextEditor := activeTextEditor w; settings := settings w;
     files := files w; timers := v; nextTimer := nextTimer w;
     processes := processes w; nextPid := nextPid w;
     decorations := decorations w;
     nextDecorationType := nextDecorationType w; messages := messages w;
     console := console w; evaluations := evaluations w |}.

Definition set_nextTimer (v : nat) (w : World) : World :=
  {| currentDecorationType := currentDecorationType w;
     errorDecorationType := errorDecorationType w; timeout := timeout w;
     dirname := dirname w; now := now w; editors := editors w;
     activeTextEditor := activeTextEditor w; settings := settings w;
     files := files w; timers := timers w; nextTimer := v;
     processes := processes w; nextPid := nextPid w;
     decorations := decorations w;
     nextDecorationType := nextDecorationType w; messages := messages w;
     console := console w; evaluations := evaluations w |}.

Definition set_processes (v : list ChildProcess) (w : World) : World :=
  {| currentDecorationType := currentDecorationType w;
     errorDecorationType := errorDecorationType w; timeout := timeout w;
     dirname := dirname w; now := now w; editors := editors w;
     activeTextEditor := activeTextEditor w; settings := settings w;
     files := files w; timers := timers w; nextTimer := nextTimer w;
     processes := v; nextPid := nextPid w; decorations := decorations w;
     nextDecorationType := nextDecorationType w; messages := messages w;
     console := console w; evaluations := evaluations w |}.

Definition set_nextPid (v : nat) (w : World) : World :=
  {| currentDecorationType := currentDecorationType w;
     errorDecorationType := errorDecorationType w; timeout := timeout w;
     dirname := dirname w; now := now w; editors := editors w;
     activeTextEditor := activeTextEditor w; settings := settings w;
     files := files w; timers := timers w; nextTimer := nextTimer w;
     processes := processes w; nextPid := v; decorations := decorations w;
     nextDecorationType := nextDecorationType w; messages := messages w;
     console := console w; evaluations := evaluations w |}.

Definition set_decorations (v : list Decoration) (w : World) : World :=
  {| currentDecorationType := currentDecorationType w;
     errorDecorationType := errorDecorationType w; timeout := timeout w;
     dirname := dirname w; now := now w; editors := editors w;
     activeTextEditor := activeTextEditor w; settings := settings w;
     files := files w; timers := timers w; nextTimer := nextTimer w;
     processes := processes w; nextPid := nextPid w; decorations := v;
     nextDecorationType := nextDecorationType w; messages := messages w;
     console := console w; evaluations := evaluations w |}.

Definition set_nextDecorationType (v : nat) (w : World) : World :=
  {| currentDecorationType := currentDecorationType w;
     errorDecorationType := errorDecorationType w; timeout := timeout w;
     dirname := dirname w; now := now w; editors := editors w;
     activeTextEditor := activeTextEditor w; settings := settings w;
     files := files w; timers := timers w; nextTimer := nextTimer w;
     processes := processes w; nextPid := nextPid w;
     decorations := decorations w; nextDecorationType := v;
     messages := messages w; console := console w;
     evaluations := evaluations w |}.

Definition set_messages (v : list Message) (w : World) : World :=
  {| currentDecorationType := currentDecorationType w;
     errorDecorationType := errorDecorationType w; timeout := timeout w;
     dirname := dirname w; now := now w; editors := editors w;
     activeTextEditor := activeTextEditor w; settings := settings w;
     files := files w; timers := timers w; nextTimer := nextTimer w;
     processes := processes w; nextPid := nextPid w;
     decorations := decorations w;
     nextDecorationType := nextDecorationType w; messages := v;
     console := console w; evaluations := evaluations w |}.

Definition set_console (v : list jsstring) (w : World) : World :=
  {| currentDecorationType := currentDecorationType w;
     errorDecorationType := errorDecorationType w; timeout := timeout w;
     dirname := dirname w; now := now w; editors := editors w;
     activeTextEditor := activeTextEditor w; settings := settings w;
     files := files w; timers := timers w; nextTimer := nextTimer w;
     processes := processes w; nextPid := nextPid w;
     decorations := decorations w;
     nextDecorationType := nextDecorationType w; messages := messages w;
     console := v; evaluations := evaluations w |}.

Definition set_evaluations (v : nat) (w : World) : World :=
  {| currentDecorationType := currentDecorationType w;
     errorDecorationType := errorDecorationType w; timeout := timeout w;
     dirname := dirname w; now := now w; editors := editors w;
     activeTextEditor := activeTextEditor w; settings := settings w;
     files := files w; timers := timers w; nextTimer := nextTimer w;
     processes := processes w; nextPid := nextPid w;
     decorations := decorations w;
     nextDecorationType := nextDecorationType w; messages := messages w;
     console := console w; evaluations := v |}.

(** ** Effects

    A computation changes the world and either completes normally or throws;
    what it did before throwing stays done. *)

Inductive Completion (A : Type) :=
| Normal (a : A)
| Throw (e : JsError).
Arguments Normal {A} a.
Arguments Throw {A} e.

Definition Eff (A : Type) : Type := World -> Completion A * World.

#[global] Instance Eff_ret : MRet Eff := fun A a w => (Normal a, w).

#[global] Instance Eff_bind : MBind Eff := fun A B f m w =>
  match m w with
  | (Normal a, w') => f a w'
  | (Throw e, w') => (Throw e, w')
  end.

Definition gets {A : Type} (f : World -> A) : Eff A := fun w => (Normal (f w), w).
Definition modify (f : World -> World) : Eff unit := fun w => (Normal tt, f w).
Definition throw {A : Type} (e : JsError) : Eff A := fun w => (Throw e, w).

(** The world a computation leaves behind. *)
Definition exec_world {A : Type} (m : Eff A) (w : World) : World := snd (m w).

(** ** Host primitives *)

Module Host.

(** [document.getText()]: the lines joined by the line terminator. *)
Fixpoint joinLines (sep : jsstring) (ls : list jsstring) : jsstring :=
  match ls with
  | [] => []
  | [l] => l
  | l :: ls' => l ++ sep ++ joinLines sep ls'
  end.

Definition getText (d : TextDocument) : jsstring := joinLines (eol d) (lines d).

(** [document.lineAt(n).text]; the host throws when [n] is no line of the
    document. *)
Definition lineAt (d : TextDocument) (n : nat) : Eff jsstring :=
  match lines d !! n with
  | Some l => mret l
  | None => throw IllegalLine
  end.

(** [document.offsetAt(p)]: the host first moves [p] into the document. *)
Fixpoint offsetIn (sep : jsstring) (ls : list jsstring) (l c : nat) : nat :=
  match ls, l with
  | [], _ => 0
  | t :: _, O => Nat.min c (length t)
  | [t], S _ => length t
  | t :: ls', S l' => length t + length sep + offsetIn sep ls' l' c
  end%nat.

Definition offsetAt (d : TextDocument) (p : Position) : nat :=
  offsetIn (eol d) (lines d) (line p) (character p).

(** [document.getText(selection)]: the text between the two ends of the
    selection, whichever comes first. *)
Definition getTextIn (d : TextDocument) (s : Selection) : jsstring :=
  let a := offsetAt d (anchor s) in
  let b := offsetAt d (active s) in
  take (Nat.max a b - Nat.min a b) (drop (Nat.min a b) (getText d)).

(** [editor.setDecorations(type, options)] replaces what [type] shows in
    that editor. *)
Definition render (editor type : nat) (o : DecorationOptions) : Decoration :=
  {| deco_type := type; deco_editor := editor;
     deco_line := range_line o; deco_character := range_character o;
     contentText := after_contentText o; color := after_color o |}.

Definition shows (editor type : nat) (d : Decoration) : bool :=
  (deco_type d =? type)%nat && (deco_editor d =? editor)%nat.

Definition setDecorations (editor type : nat) (os : list DecorationOptions) : Eff unit :=
  modify (fun w =>
    set_decorations
      (filter (fun d => shows editor type d = false) (decorations w)
         ++ map (render editor type) os) w).

(** [type.dispose()] removes the decoration type from every editor. *)
Definition dispose (type : nat) : Eff unit :=
  modify (fun w =>
    set_decorations
      (filter (fun d => (deco_type d =? type)%nat = false) (decorations w)) w).

Definition createTextEditorDecorationType : Eff nat :=
  fun w =>
    (Normal (nextDecorationType w),
     set_nextDecorationType (S (nextDecorationType w)) w).

(** [vscode.workspace.getConfiguration('quickphp').get(key)] *)
Definition getConfiguration (key : string) : Eff (option Setting) :=
  gets (fun w => settings w !! key).

(** [value || fallback] followed by the conversion to a string that the
    template literal or the host applies to the result. *)
Definition settingOr (v : option Setting) (fallback : jsstring) : jsstring :=
  match v with
  | Some (SString s) => or_else s fallback
  | Some (SNumber n) => if (n =? 0)%N then fallback else decimal n
  | None => fallback
  end.

Definition Date_now : Eff Z := gets now.

(** [path.join(__dirname, name)]: [__dirname] is an absolute, normalised
    directory, so the join is the directory, the separator and the name. *)
Definition path_join (dir name : jsstring) : jsstring := dir ++ lit "/" ++ name.

Definition writeFileSync (path content : jsstring) : Eff unit :=
  modify (fun w => set_files (<[path := content]> (files w)) w).

Definition unlinkSync (path : jsstring) : Eff unit :=
  fun w =>
    match files w !! path with
    | Some _ => (Normal tt, set_files (delete path (files w)) w)
    | None => (Throw (ENOENT path), w)
    end.

(** [exec(command, callback)] starts a child process; the callback runs
    when the process has exited. *)
Definition exec (cmd : jsstring) (cb : Callback) : Eff unit :=
  modify (fun w =>
    set_nextPid (S (nextPid w))
      (set_processes
         (processes w ++ [{| pid := nextPid w; command := cmd; callback := cb |}]) w)).

Definition setTimeout (editor : nat) (delay : Z) : Eff nat :=
  fun w =>
    (Normal (nextTimer w),
     set_nextTimer (S (nextTimer w))
       (set_timers
          (timers w ++ [{| timer_id := nextTimer w; due := now w + delay;
                           timer_editor := editor |}]) w)).

(** [clearTimeout(id)]; an [undefined] or stale [id] cancels nothing. *)
Definition clearTimeout (id : option nat) : Eff unit :=
  match id with
  | Some i =>
      modify (fun w =>
        set_timers (filter (fun t => (timer_id t =? i)%nat = false) (timers w)) w)
  | None => mret tt
  end.

Definition showErrorMessage (text : jsstring) : Eff unit :=
  modify (fun w => set_messages (messages w ++ [ErrorMessage text]) w).

Definition showInformationMessage (text : jsstring) : Eff unit :=
  modify (fun w => set_messages (messages w ++ [InformationMessage text]) w).

Definition console_log (text : jsstring) : Eff unit :=
  modify (fun w => set_console (console w ++ [text]) w).

(** The template [${error}] of an error object or [null]. *)
Definition errorToString (error : option ExecException) : jsstring :=
  match error with
  | None => lit "null"
  | Some e => if truthy (message e) then lit "Error: " ++ message e else lit "Error"
  end.

End Host.
Import Host.

(** ** The extension: [src/extension.ts] *)

Record Config := {
  executionDelay : Z;
  phpPath : jsstring;
  inlineColor : jsstring
}.

Definition defaultConfig : Config :=
  {| executionDelay := 300; phpPath := lit "php"; inlineColor := lit "grey" |}.

Definition quote : jsstring := [34%N].
Definition newline : jsstring := [10%N].

Definition clearOutput (editor : nat) : Eff unit :=
  cur ← gets currentDecorationType;
  match cur with
  | Some d =>
      setDecorations editor d [];;
      dispose d;;
      modify (set_currentDecorationType None)
  | None => mret tt
  end;;
  err ← gets errorDecorationType;
  match err with
  | Some d =>
      setDecorations editor d [];;
      dispose d;;
      modify (set_errorDecorationType None)
  | None => mret tt
  end.

Definition displayInlineOutput (output : jsstring) (editor currentLine : nat)
    (executionTime : jsstring) (isError : bool) : Eff unit :=
  if negb (truthy (trim output)) then mret tt
  else
    clearOutput editor;;
    color ← (if isError then mret (lit "red")
             else
               c ← getConfiguration "inlineColor";
               mret (settingOr c (inlineColor defaultConfig)));
    let formattedOutput :=
      if isError
      then lit "Error: " ++ output ++ lit " (Execution Time: " ++ executionTime ++ lit "s)"
      else output ++ lit " (Execution Time: " ++ executionTime ++ lit "s)" in
    ed ← gets (fun w => editors w editor);
    targetLineText ← lineAt (document ed) currentLine;
    let decorations :=
      [{| range_line := currentLine;
          range_character := length targetLineText;
          after_contentText := lit " // " ++ formattedOutput;
          after_color := color |}] in
    d ← createTextEditorDecorationType;
    modify (set_currentDecorationType (Some d));;
    setDecorations editor d decorations.

(** The name of the temporary file of the live mode and of the block mode. *)
Definition liveTempFile (w : World) : jsstring :=
  path_join (dirname w) (lit "quickphp.php").

Definition blockTempFile (w : World) : jsstring :=
  path_join (dirname w) (lit "quickphp_block.php").

(** The callback that [runPHPCode] hands to [exec]. *)
Definition runPHPCode_done (editor currentLine : nat) (filePath : jsstring)
    (isTempFile : bool) (phpPath : jsstring) (startTime : Z)
    (error : option ExecException) (stdout stderr : jsstring) : Eff unit :=
  endTime ← Date_now;
  let executionTime := toFixed2 (endTime - startTime) in
  console_log (lit "Executing: " ++ phpPath ++ lit " " ++ quote ++ filePath ++ quote);;
  console_log (lit "Stdout: " ++ stdout);;
  console_log (lit "Stderr: " ++ stderr);;
  console_log (lit "Error: " ++ errorToString error);;
  (if bool_decide (is_Some error) || truthy stderr then
     clearOutput editor;;
     let errorMessage :=
       or_else (trim stderr)
         (match error with
          | Some e => message e
          | None => lit "Unknown error"
          end) in
     let errorMessage :=
       if isTempFile then replace errorMessage filePath (lit "Current File")
       else errorMessage in
     displayInlineOutput (lit "Error: " ++ errorMessage) editor currentLine
       executionTime true
   else
     clearOutput editor;;
     displayInlineOutput (trim stdout) editor currentLine executionTime false);;
  if isTempFile then unlinkSync filePath else mret tt.

Definition runPHPCode (code : jsstring) (editor currentLine : nat) : Eff unit :=
  ed ← gets (fun w => editors w editor);
  let filePath := uri_fsPath (document ed) in
  '(filePath, isTempFile) ←
    (if negb (truthy filePath) || isUntitled (document ed) then
       filePath ← gets liveTempFile;
       writeFileSync filePath (lit "<?php" ++ newline ++ code ++ newline ++ lit "?>");;
       mret (filePath, true)
     else mret (filePath, false));
  c ← getConfiguration "phpPath";
  let phpPath := settingOr c (lit "php") in
  startTime ← Date_now;
  exec (phpPath ++ lit " " ++ quote ++ filePath ++ quote)
    (LiveCallback editor currentLine filePath isTempFile phpPath startTime).

(** The callback that [runSelectedBlock] hands to [exec]. *)
Definition runSelectedBlock_done (editor : nat) (tempFilePath : jsstring)
    (error : option ExecException) (stdout stderr : jsstring) : Eff unit :=
  (if bool_decide (is_Some error) || truthy stderr then
     clearOutput editor;;
     showErrorMessage
       (or_else (trim stderr)
          (match error with
           | Some e => message e
           | None => lit "Unknown error"
           end))
   else showInformationMessage (trim stdout));;
  unlinkSync tempFilePath.

Definition runSelectedBlock (editor : nat) : Eff unit :=
  ed ← gets (fun w => editors w editor);
  let selectedText := getTextIn (document ed) (selection ed) in
  if negb (truthy (trim selectedText)) then
    showErrorMessage (lit "No PHP code selected to execute.")
  else
    tempFilePath ← gets blockTempFile;
    writeFileSync tempFilePath selectedText;;
    c ← getConfiguration "phpPath";
    let phpPath := settingOr c (phpPath defaultConfig) in
    exec (phpPath ++ lit " " ++ quote ++ tempFilePath ++ quote)
      (BlockCallback editor tempFilePath).

(** The condition of [updateOutput] on the trimmed text of the current
    line. *)
Definition looksEvaluable (currentLineText : jsstring) : bool :=
  startsWith currentLineText (lit "echo ")
  || includes currentLineText (lit "print")
  || includes currentLineText (lit "$").

(** The arrow function that [updateOutput] hands to [setTimeout]. *)
Definition updateOutput_fire (editor : nat) : Eff unit :=
  ed ← gets (fun w => editors w editor);
  let currentLine := line (active (selection ed)) in
  text ← lineAt (document ed) currentLine;
  let currentLineText := trim text in
  if looksEvaluable currentLineText then
    let documentText := getText (document ed) in
    runPHPCode documentText editor currentLine
  else clearOutput editor.

Definition updateOutput (editor : nat) : Eff unit :=
  t ← gets timeout;
  clearTimeout t;;
  id ← setTimeout editor (executionDelay defaultConfig);
  modify (set_timeout (Some id)).

(** The three handlers that [activate] registers. *)
Definition onDidChangeTextDocument (event_document : nat) : Eff unit :=
  a ← gets activeTextEditor;
  match a with
  | Some editor =>
      ed ← gets (fun w => editors w editor);
      if (event_document =? doc_id (document ed))%nat then updateOutput editor
      else mret tt
  | None => mret tt
  end.

Definition onDidChangeTextEditorSelection (event_textEditor : nat) : Eff unit :=
  updateOutput event_textEditor.

Definition quickphp_runBlock : Eff unit :=
  a ← gets activeTextEditor;
  match a with
  | Some editor => runSelectedBlock editor
  | None => mret tt
  end.

Definition deactivate : Eff unit :=
  cur ← gets currentDecorationType;
  match cur with Some d => dispose d | None => mret tt end;;
  err ← gets errorDecorationType;
  match err with Some d => dispose d | None => mret tt end.

(** ** The event loop

    The host delivers one event at a time.  The first five events run code
    of the extension; the others are changes of the host that the extension
    only observes.  A timer runs its callback no earlier than it is due, a
    process callback runs when the process has exited.  An exception that
    leaves a callback is reported by the host and changes nothing else. *)

Inductive Event :=
| DidChangeTextDocument (document : nat)
| DidChangeTextEditorSelection (textEditor : nat)
| Command_runBlock
| TimerElapsed (id : nat)
| ProcessExited (pid : nat) (error : option ExecException) (stdout stderr : jsstring)
| Elapse (ms : N)
| EditorChanged (editor : nat) (state : TextEditor)
| ActiveEditorChanged (editor : option nat)
| SettingsChanged (key : string) (value : option Setting).

Definition timerElapsed (id : nat) : Eff unit :=
  fun w =>
    match List.find (fun t => (timer_id t =? id)%nat) (timers w) with
    | Some t =>
        if due t <=? now w then
          updateOutput_fire (timer_editor t)
            (set_evaluations (S (evaluations w))
               (set_timers
                  (filter (fun t => (timer_id t =? id)%nat = false) (timers w)) w))
        else (Normal tt, w)
    | None => (Normal tt, w)
    end.

Definition runCallback (cb : Callback) (error : option ExecException)
    (stdout stderr : jsstring) : Eff unit :=
  match cb with
  | LiveCallback editor currentLine filePath isTempFile phpPath startTime =>
      runPHPCode_done editor currentLine filePath isTempFile phpPath startTime
        error stdout stderr
  | BlockCallback editor tempFilePath =>
      runSelectedBlock_done editor tempFilePath error stdout stderr
  end.

Definition processExited (p : nat) (error : option ExecException)
    (stdout stderr : jsstring) : Eff unit :=
  fun w =>
    match List.find (fun c => (pid c =? p)%nat) (processes w) with
    | Some c =>
        runCallback (callback c) error stdout stderr
          (set_processes
             (filter (fun c => (pid c =? p)%nat = false) (processes w)) w)
    | None => (Normal tt, w)
    end.

Definition handle (ev : Event) : Eff unit :=
  match ev with
  | DidChangeTextDocument d => onDidChangeTextDocument d
  | DidChangeTextEditorSelection e => onDidChangeTextEditorSelection e
  | Command_runBlock => quickphp_runBlock
  | TimerElapsed id => timerElapsed id
  | ProcessExited p error stdout stderr => processExited p error stdout stderr
  | Elapse ms => modify (fun w => set_now (now w + Z.of_N ms) w)
  | EditorChanged e st => modify (fun w => set_editors (<[e := st]> (editors w)) w)
  | ActiveEditorChanged e => modify (set_activeTextEditor e)
  | SettingsChanged k v =>
      modify (fun w =>
        set_settings
          (match v with
           | Some x => <[k := x]> (settings w)
           | None => delete k (settings w)
           end) w)
  end.

Definition deliver (ev : Event) (w : World) : World := exec_world (handle ev) w.

Definition run (evs : list Event) (w : World) : World :=
  fold_left (fun w ev => deliver ev w) evs w.

(** The world in which [activate] has just run: the module-level variables
    are [undefined], nothing is pending, nothing is shown. *)
Definition initial (dir : jsstring) (t0 : Z) (eds : nat -> TextEditor)
    (act : option nat) (cfg : gmap string Setting)
    (fs : gmap jsstring jsstring) : World :=
  {| currentDecorationType := None; errorDecorationType := None;
     timeout := None; dirname := dir; now := t0; editors := eds;
     activeTextEditor := act; settings := cfg; files := fs;
     timers := []; nextTimer := 0; processes := []; nextPid := 0;
     decorations := []; nextDecorationType := 0; messages := [];
     console := []; evaluations := 0 |}.

(** The annotations that an editor shows. *)
Definition annotations (w : World) (editor : nat) : list Decoration :=
  filter (fun d => deco_editor d = editor) (decorations w).

(** A decoration that none of the two module-level handles refers to. *)
Definition untracked (w : World) (d : Decoration) : Prop :=
  currentDecorationType w ≠ Some (deco_type d)
  ∧ errorDecorationType w ≠ Some (deco_type d).

(** ** Vocabulary of the properties *)

(** The world after [clearOutput]: both handles are [undefined] and what
    they showed is gone. *)
Definition cleared (w : World) : World :=
  set_errorDecorationType None
    (set_currentDecorationType None
       (set_decorations (filter (untracked w) (decorations w)) w)).

(** The decoration that [displayInlineOutput] builds. *)
Definition annotation (type editor currentLine : nat)
    (targetLineText formattedOutput color : jsstring) : Decoration :=
  {| deco_type := type; deco_editor := editor; deco_line := currentLine;
     deco_character := length targetLineText;
     contentText := lit " // " ++ formattedOutput; color := color |}.

(** The world after [displayInlineOutput] has rendered [a]. *)
Definition shown (w : World) (editor : nat) (a : Decoration) : World :=
  set_decorations
    (filter (fun d => shows editor (nextDecorationType w) d = false)
       (decorations (cleared w)) ++ [a])
    (set_currentDecorationType (Some (nextDecorationType w))
       (set_nextDecorationType (S (nextDecorationType w)) (cleared w))).

(** The colour of a successful annotation. *)
Definition successColor (w : World) : jsstring :=
  settingOr (settings w !! "inlineColor") (inlineColor defaultConfig).

(** The interpreter of the live mode and the command line it is run with. *)
Definition livePhpPath (w : World) : jsstring :=
  settingOr (settings w !! "phpPath") (lit "php").

Definition commandLine (phpPath filePath : jsstring) : jsstring :=
  phpPath ++ lit " " ++ quote ++ filePath ++ quote.

(** Every decoration on screen belongs to one of the two handles, and
    there is at most one. *)
Definition annotation_inv (w : World) : Prop :=
  (length (decorations w) <= 1)%nat
  ∧ Forall (fun d => currentDecorationType w = Some (deco_type d)
                     ∨ errorDecorationType w = Some (deco_type d))
      (decorations w).

(** Every pending timer is the one that [timeout] holds. *)
Definition timer_inv (w : World) : Prop :=
  timers w = [] ∨ ∃ t, timers w = [t] ∧ timeout w = Some (timer_id t).

(** The editor for which a notification reaches [updateOutput]. *)
Definition reaches (ev : Event) (w : World) : option nat :=
  match ev with
  | DidChangeTextEditorSelection e => Some e
  | DidChangeTextDocument d =>
      match activeTextEditor w with
      | Some e =>
          if (d =? doc_id (document (editors w e)))%nat then Some e else None
      | None => None
      end
  | _ => None
  end.






(** A rendering of a non-negative number with two decimals. *)
Definition nonNegativeSeconds (t : jsstring) : Prop :=
  ∃ n : N, t = decimal (n / 100) ++ lit "." ++ twoDigits (Z.of_N n mod 100).

(** The claim that every occurrence of the temporary path is replaced. *)
Definition every_occurrence_replaced : Prop :=
  ∀ (w : World) (editor currentLine : nat) (phpPath : jsstring) (startTime : Z)
    (error : option ExecException) (stdout stderr : jsstring) (d : Decoration),
    bool_decide (is_Some error) || truthy stderr = true ->
    let w' := exec_world
                (runPHPCode_done editor currentLine (liveTempFile w) true phpPath
                   startTime error stdout stderr) w in
    d ∈ decorations w' ->
    includes (contentText d) (liveTempFile w) = false.

(** The claim that the delay is read from the settings store. *)
Definition delay_from_settings : Prop :=
  ∀ (w : World) (editor : nat) (ms : N) (t : Timer),
    settings w !! "executionDelay" = Some (SNumber ms) ->
    t ∈ timers (exec_world (updateOutput editor) w) ->
    due t = now w + Z.of_N ms.

(** The world after [exec]: one more child process in flight. *)
Definition spawn (cmd : jsstring) (cb : Callback) (w : World) : World :=
  set_nextPid (S (nextPid w))
    (set_processes
       (processes w ++ [{| pid := nextPid w; command := cmd; callback := cb |}]) w).

(** The text that the live mode writes to its temporary file. *)
Definition wrapped (code : jsstring) : jsstring :=
  lit "<?php" ++ newline ++ code ++ newline ++ lit "?>".

(** The parts of the world that the decoration code works on. *)
Definition deco_eq (w1 w2 : World) : Prop :=
  currentDecorationType w1 = currentDecorationType w2
  ∧ errorDecorationType w1 = errorDecorationType w2
  ∧ decorations w1 = decorations w2
  ∧ nextDecorationType w1 = nextDecorationType w2.

(** What one event can do to the decorations: nothing, [clearOutput], or
    [clearOutput] followed by one new decoration. *)
Inductive deco_step (w w' : World) : Prop :=
| deco_same : deco_eq w' w -> deco_step w w'
| deco_cleared : deco_eq w' (cleared w) -> deco_step w w'
| deco_shown (editor : nat) (a : Decoration) :
    deco_type a = nextDecorationType w ->
    deco_eq w' (shown w editor a) -> deco_step w w'.

(** The parts of the world that the debounce code works on. *)
Definition timer_eq (w1 w2 : World) : Prop :=
  timers w1 = timers w2
  ∧ timeout w1 = timeout w2
  ∧ nextTimer w1 = nextTimer w2
  ∧ evaluations w1 = evaluations w2
  ∧ now w1 = now w2.

(** The timers that [clearTimeout(timeout)] leaves pending. *)
Definition stillPending (w : World) : list Timer :=
  match timeout w with
  | Some i => filter (fun t => (timer_id t =? i)%nat = false) (timers w)
  | None => timers w
  end.

(** The world after [updateOutput]: the old timer is cancelled and a new
    one is armed for [editor]. *)
Definition scheduled (editor : nat) (w : World) : World :=
  set_timeout (Some (nextTimer w))
    (set_nextTimer (S (nextTimer w))
       (set_timers
          (stillPending w
             ++ [{| timer_id := nextTimer w;
                    due := now w + executionDelay defaultConfig;
                    timer_editor := editor |}]) w)).

(** Decoration types on screen are older than the next one to be made. *)
Definition fresh_inv (w : World) : Prop :=
  Forall (fun d => (deco_type d < nextDecorationType w)%nat) (decorations w).

(** ** Sample sessions *)

Module Demo.

Definition cursor (l c : nat) : Selection :=
  {| anchor := {| line := l; character := c |};
     active := {| line := l; character := c |} |}.

Definition span (l c l' c' : nat) : Selection :=
  {| anchor := {| line := l; character := c |};
     active := {| line := l'; character := c' |} |}.

Definition untitled (ls : list jsstring) : TextDocument :=
  {| doc_id := 0; uri_fsPath := lit "Untitled-1"; isUntitled := true;
     lines := ls; eol := newline |}.

Definition saved (path : jsstring) (ls : list jsstring) : TextDocument :=
  {| doc_id := 1; uri_fsPath := path; isUntitled := false;
     lines := ls; eol := newline |}.

(** A session with one editor, the active one, in a freshly activated
    extension installed in [/ext/dist]. *)
Definition boot (ed : TextEditor) (cfg : gmap string Setting) : World :=
  initial (lit "/ext/dist") 1000 (fun _ => ed) (Some 0%nat) cfg ∅.

(** The line [echo "Hello, QuickPHP!";] as the sole content of an unsaved
    document. *)
Definition helloLine : jsstring :=
  lit "echo " ++ quote ++ lit "Hello, QuickPHP!" ++ quote ++ lit ";".

Definition helloEditor : TextEditor :=
  {| document := untitled [helloLine]; selection := cursor 0 24 |}.

Definition helloIdle : World := boot helloEditor ∅.

(** The cursor moves, the delay passes, the timer fires: the interpreter
    runs on the temporary file. *)
Definition helloRunning : World :=
  run [DidChangeTextEditorSelection 0; Elapse 300; TimerElapsed 0] helloIdle.

(** The interpreter prints the greeting after 37 ms. *)
Definition helloDone : World :=
  run [Elapse 37; ProcessExited 0 None (lit "Hello, QuickPHP!") []] helloRunning.

(** The cursor then sits on a comment line below. *)
Definition noteEditor : TextEditor :=
  {| document := untitled [helloLine; lit "// done"]; selection := cursor 1 0 |}.

Definition helloNote : World := deliver (EditorChanged 0 noteEditor) helloDone.

(** A saved file. *)
Definition savedEditor : TextEditor :=
  {| document := saved (lit "/home/u/site/index.php")
                   [lit "<?php"; lit "print_r($_GET);"];
     selection := cursor 1 0 |}.

Definition savedIdle : World := boot savedEditor ∅.

(** An unsaved document that reads two undefined variables; the
    interpreter reports one warning for each on its error stream. *)
Definition warnEditor : TextEditor :=
  {| document := untitled [lit "echo $a;"; lit "echo $b;"]; selection := cursor 0 8 |}.

Definition warnRunning : World :=
  run [DidChangeTextEditorSelection 0; Elapse 300; TimerElapsed 0]
    (boot warnEditor ∅).

Definition warnings : jsstring :=
  lit "PHP Warning:  Undefined variable $a in /ext/dist/quickphp.php on line 2"
    ++ newline
    ++ lit "PHP Warning:  Undefined variable $b in /ext/dist/quickphp.php on line 3".

Definition warnDone : World :=
  run [Elapse 40; ProcessExited 0 None [] warnings] warnRunning.

(** A session whose settings ask for a delay of one second. *)
Definition slowIdle : World :=
  boot helloEditor {[ "executionDelay" := SNumber 1000 ]}.

(** A selection of three blanks, and a selection of a statement. *)
Definition blockLines : list jsstring :=
  [lit "<?php"; lit "   "; lit "echo 1;"].

Definition blankSelection : World :=
  boot {| document := untitled blockLines; selection := span 1 0 1 3 |} ∅.

Definition statementSelection : World :=
  boot {| document := untitled blockLines; selection := span 0 0 2 7 |} ∅.

End Demo.

(** ** Vocabulary of the further properties *)

(** The test [error || stderr] of the two [exec] callbacks. *)
Definition failed (error : option ExecException) (stderr : jsstring) : bool :=
  bool_decide (is_Some error) || truthy stderr.

(** The message of a failed run: [stderr.trim() || (error ? error.message :
    'Unknown error')]. *)
Definition failureText (error : option ExecException) (stderr : jsstring) : jsstring :=
  or_else (trim stderr)
    (match error with
     | Some e => message e
     | None => lit "Unknown error"
     end).

(** The text that the callback of [runPHPCode] hands to the presenter. *)
Definition presented (filePath : jsstring) (isTempFile : bool)
    (error : option ExecException) (stdout stderr : jsstring) : jsstring :=
  if failed error stderr then
    lit "Error: " ++
      (if isTempFile
       then replace (failureText error stderr) filePath (lit "Current File")
       else failureText error stderr)
  else trim stdout.

(** The file that a callback deletes when it is done, if any. *)
Definition deletes (cb : Callback) : option jsstring :=
  match cb with
  | LiveCallback _ _ filePath true _ _ => Some filePath
  | LiveCallback _ _ _ false _ _ => None
  | BlockCallback _ tempFilePath => Some tempFilePath
  end.

(** Every process in flight deletes at most one of the two temporary
    files. *)
Definition proc_inv (w : World) : Prop :=
  Forall (fun c => ∀ path, deletes (callback c) = Some path ->
                   path = liveTempFile w ∨ path = blockTempFile w)
    (processes w).

(** The world after the four [console.log] calls of the callback of
    [runPHPCode]. *)
Definition logged (phpPath filePath : jsstring) (error : option ExecException)
    (stdout stderr : jsstring) (w : World) : World :=
  set_console
    (console w
       ++ [lit "Executing: " ++ commandLine phpPath filePath;
           lit "Stdout: " ++ stdout;
           lit "Stderr: " ++ stderr;
           lit "Error: " ++ errorToString error]) w.

(** The last step of the callback of [runPHPCode]. *)
Definition cleanup (filePath : jsstring) (isTempFile : bool) : Eff unit :=
  if isTempFile then unlinkSync filePath else mret tt.

(** A pending timer is due within the delay. *)
Definition due_soon (w : World) : Prop :=
  Forall (fun t => due t <= now w + 300) (timers w).

(** A text of white space only. *)
Abbreviation blank := (Forall (fun c => isWhiteSpace c = true)).

(** ** Further sample sessions *)

Module Scenes.

(** A run is in flight for line 1 of an unsaved document when the
    document shrinks to a single line. *)
Definition twoLines : TextEditor :=
  {| document := Demo.untitled [lit "// sum"; lit "echo 1 + 1;"];
     selection := Demo.cursor 1 0 |}.

Definition oneLine : TextEditor :=
  {| document := Demo.untitled [lit "// sum"]; selection := Demo.cursor 0 0 |}.

Definition shrunk : World :=
  run [DidChangeTextEditorSelection 0; Elapse 300; TimerElapsed 0;
       EditorChanged 0 oneLine; Elapse 20]
    (Demo.boot twoLines ∅).

(** The greeting is on screen and a second run is in flight. *)
Definition helloAgain : World :=
  run [DidChangeTextEditorSelection 0; Elapse 300; TimerElapsed 1]
    Demo.helloDone.

(** The block command on a selected statement, its process in flight. *)
Definition blockRunning : World :=
  deliver Command_runBlock Demo.statementSelection.

(** A session that starts with a file of the user on disk. *)
Definition userFile : jsstring := lit "/home/u/site/index.php".

Definition withUserFile : gmap jsstring jsstring :=
  {[ userFile := lit "<?php print_r($_GET);" ]}.

Definition busyDay : list Event :=
  [DidChangeTextEditorSelection 0; Elapse 300; TimerElapsed 0;
   Command_runBlock; Elapse 25;
   ProcessExited 0 None (lit "Hello, QuickPHP!") [];
   ProcessExited 1 (Some {| message := lit "Command failed" |}) [] (lit "oops")].

End Scenes.



(** * Properties *)

(** ** Tactics for the effect layer *)

Ltac eff := cbv [mbind mret Eff_bind Eff_ret gets modify throw exec_world].

Ltac setters :=
  cbv [set_currentDecorationType set_errorDecorationType set_timeout set_now
       set_editors set_activeTextEditor set_settings set_files set_timers
       set_nextTimer set_processes set_nextPid set_decorations
       set_nextDecorationType set_messages set_console set_evaluations].

(** ** JavaScript strings *)

Module JSFacts.

Lemma startsWith_spec (s p : jsstring) :
  startsWith s p = true <-> exists t, s = p ++ t.
Proof.
  revert s. induction p as [|a p IH]; intros s; simpl.
  - split; [intros _; now exists s | reflexivity].
  - destruct s as [|b s].
    + split; [discriminate | intros [t Ht]; discriminate].
    + unfold code_eqb. rewrite andb_true_iff, N.eqb_eq, IH. split.
      * intros [-> [t ->]]. eauto.
      * intros [t Ht]. injection Ht as -> ->. eauto.
Qed.

Lemma includes_spec (s p : jsstring) :
  includes s p = true <-> exists a b, s = a ++ p ++ b.
Proof.
  induction s as [|c s IH]; simpl.
  - rewrite orb_false_r, startsWith_spec. split.
    + intros [t Ht]. exists [], t. exact Ht.
    + intros [a [b Hab]]. destruct a; [eauto | discriminate].
  - rewrite orb_true_iff, startsWith_spec, IH. split.
    + intros [[t Ht] | [a [b Hab]]].
      * exists [], t. exact Ht.
      * exists (c :: a), b. simpl. now rewrite Hab.
    + intros [a [b Hab]]. destruct a as [|c' a]; simpl in Hab.
      * left. eauto.
      * right. injection Hab as _ ->. eauto.
Qed.

Lemma trimStart_decomp (s : jsstring) :
  exists ws, s = ws ++ trimStart s /\ Forall (fun c => isWhiteSpace c = true) ws.
Proof.
  induction s as [|c s [ws [Hs Hws]]]; simpl.
  - exists []. split; [reflexivity | constructor].
  - destruct (isWhiteSpace c) eqn:Hc.
    + exists (c :: ws). split; [simpl; congruence | now constructor].
    + exists []. split; [reflexivity | constructor].
Qed.

Lemma trimStart_head (s : jsstring) c t :
  trimStart s = c :: t -> isWhiteSpace c = false.
Proof.
  induction s as [|d s IH]; simpl; [discriminate |].
  destruct (isWhiteSpace d) eqn:Hd; [exact IH |].
  intros H. injection H as -> _. exact Hd.
Qed.

Lemma trimEnd_nil (s : jsstring) :
  trimEnd s = [] <-> Forall (fun c => isWhiteSpace c = true) s.
Proof.
  induction s as [|c s IH]; simpl.
  - split; [constructor | reflexivity].
  - destruct (trimEnd s) as [|d t] eqn:Ht.
    + destruct (isWhiteSpace c) eqn:Hc; split; intros H.
      * constructor; [exact Hc | now apply IH].
      * reflexivity.
      * discriminate.
      * inversion H; congruence.
    + split; [discriminate |]. intros H. inversion H as [|? ? _ Hs]; subst.
      apply IH in Hs. discriminate.
Qed.

(** [trim] yields the empty string exactly on white-space-only input. *)
Lemma trim_nil (s : jsstring) :
  trim s = [] <-> Forall (fun c => isWhiteSpace c = true) s.
Proof.
  unfold trim. rewrite trimEnd_nil.
  destruct (trimStart_decomp s) as [ws [Hs Hws]]. split.
  - intros H. rewrite Hs. apply Forall_app. auto.
  - intros H. rewrite Hs in H. apply Forall_app in H. tauto.
Qed.

Lemma trimEnd_idem (s : jsstring) : trimEnd (trimEnd s) = trimEnd s.
Proof.
  induction s as [|c s IH]; [reflexivity |]. simpl.
  destruct (trimEnd s) as [|d t] eqn:Ht.
  - destruct (isWhiteSpace c) eqn:Hc; [reflexivity |]. simpl. now rewrite Hc.
  - change (trimEnd (c :: d :: t))
      with (match trimEnd (d :: t) with
            | [] => if isWhiteSpace c then [] else [c]
            | x :: u => c :: x :: u
            end).
    now rewrite IH.
Qed.

Lemma trimStart_trimEnd (s : jsstring) :
  trimStart (trimEnd (trimStart s)) = trimEnd (trimStart s).
Proof.
  destruct (trimStart s) as [|c t] eqn:Hs; [reflexivity |].
  apply trimStart_head in Hs. simpl.
  destruct (trimEnd t); rewrite ?Hs; simpl; rewrite ?Hs; reflexivity.
Qed.

(** Trimming twice is trimming once. *)
Lemma trim_idem (s : jsstring) : trim (trim s) = trim s.
Proof.
  unfold trim. now rewrite trimStart_trimEnd, trimEnd_idem.
Qed.

End JSFacts.

(** ** The effect layer *)

Module EffFacts.

Lemma filter_all {A} (P : A → Prop) `{!∀ x, Decision (P x)} (l : list A) :
  (∀ x, P x) → filter P l = l.
Proof.
  intros HP. induction l as [|x l IH]; [reflexivity |].
  rewrite filter_cons_True by apply HP. now rewrite IH.
Qed.

Lemma filter_none {A} (P : A → Prop) `{!∀ x, Decision (P x)} (l : list A) :
  Forall (fun x => ¬ P x) l → filter P l = [].
Proof.
  induction 1 as [|x l Hx _ IH]; [reflexivity |].
  now rewrite filter_cons_False.
Qed.

Lemma filter_type_shows (editor type : nat) (l : list Decoration) :
  filter (fun d => (deco_type d =? type)%nat = false)
    (filter (fun d => shows editor type d = false) l ++ map (render editor type) [])
  = filter (fun d => deco_type d ≠ type) l.
Proof.
  simpl. rewrite app_nil_r, list_filter_filter. apply list_filter_iff.
  intros d. unfold shows. rewrite andb_false_iff, !Nat.eqb_neq. tauto.
Qed.

(** [clearOutput] never throws and leaves the world [cleared]. *)
Lemma clearOutput_eq (editor : nat) (w : World) :
  clearOutput editor w = (Normal tt, cleared w).
Proof.
  unfold clearOutput, cleared, untracked, setDecorations, dispose. eff.
  destruct w as [cur err]. cbn.
  destruct cur as [c|], err as [e|]; setters; cbn.
  all: f_equal; f_equal.
  all: rewrite ?filter_type_shows, ?list_filter_filter.
  all: try (apply list_filter_iff; intros d; cbn; intuition congruence).
  symmetry. apply filter_all. intros d. split; discriminate.
Qed.

Lemma cleared_idem (w : World) : cleared (cleared w) = cleared w.
Proof.
  unfold cleared at 1 3. setters. cbn. f_equal.
  apply filter_all. intros d. split; discriminate.
Qed.

(** Under the invariant nothing stays on screen after [clearOutput]. *)
Lemma cleared_decorations (w : World) :
  annotation_inv w → decorations (cleared w) = [].
Proof.
  intros [_ Hall]. cbn. apply filter_none.
  eapply Forall_impl; [exact Hall |].
  intros d Hd [H1 H2]. destruct Hd; congruence.
Qed.

(** The closed form of [displayInlineOutput]. *)
Lemma displayInlineOutput_eq (output : jsstring) (editor currentLine : nat)
    (executionTime : jsstring) (isError : bool) (w : World) :
  displayInlineOutput output editor currentLine executionTime isError w =
  if negb (truthy (trim output)) then (Normal tt, w)
  else
    match lines (document (editors w editor)) !! currentLine with
    | Some targetLineText =>
        (Normal tt,
         shown w editor
           (annotation (nextDecorationType w) editor currentLine targetLineText
              ((if isError then lit "Error: " else [])
                 ++ output ++ lit " (Execution Time: " ++ executionTime ++ lit "s)")
              (if isError then lit "red" else successColor w)))
    | None => (Throw IllegalLine, cleared w)
    end.
Proof.
  unfold displayInlineOutput.
  destruct (negb (truthy (trim output))); [reflexivity |].
  eff. rewrite clearOutput_eq.
  unfold getConfiguration, lineAt, createTextEditorDecorationType, setDecorations.
  eff.
  destruct isError; cbn;
    destruct (lines (document (editors w editor)) !! currentLine); reflexivity.
Qed.

End EffFacts.

(** ** C1: the trigger heuristic *)

Module Trigger.
Import EffFacts.

Lemma looksEvaluable_spec (s : jsstring) :
  looksEvaluable s = true ↔
    (∃ t, s = lit "echo " ++ t)
    ∨ (∃ a b, s = a ++ lit "print" ++ b)
    ∨ (∃ a b, s = a ++ lit "$" ++ b).
Proof.
  unfold looksEvaluable.
  rewrite !orb_true_iff, JSFacts.startsWith_spec, !JSFacts.includes_spec.
  tauto.
Qed.

(** When the heuristic fails the timer callback is [clearOutput]. *)
Lemma fire_miss (w : World) (editor : nat) (text : jsstring) :
  lines (document (editors w editor))
    !! line (active (selection (editors w editor))) = Some text →
  looksEvaluable (trim text) = false →
  updateOutput_fire editor w = (Normal tt, cleared w).
Proof.
  intros Hline Hmiss. unfold updateOutput_fire, lineAt. eff.
  rewrite Hline, Hmiss. apply clearOutput_eq.
Qed.

(** When it succeeds the callback is [runPHPCode] on the whole text. *)
Lemma fire_hit (w : World) (editor : nat) (text : jsstring) :
  lines (document (editors w editor))
    !! line (active (selection (editors w editor))) = Some text →
  looksEvaluable (trim text) = true →
  updateOutput_fire editor w =
  runPHPCode (getText (document (editors w editor))) editor
    (line (active (selection (editors w editor)))) w.
Proof.
  intros Hline Hhit. unfold updateOutput_fire, lineAt. eff.
  now rewrite Hline, Hhit.
Qed.

Lemma cleared_untracked (w : World) (d : Decoration) :
  d ∈ decorations (cleared w) → d ∈ decorations w ∧ untracked w d.
Proof. cbn. rewrite list_elem_of_filter. tauto. Qed.

(** C1. The heuristic of [updateOutput] holds exactly when the trimmed
    line starts with [echo ], or contains [print], or contains [$]; when
    it fails, the timer callback spawns no process, writes no file, and
    leaves both decoration handles [undefined] with nothing of what they
    showed on screen. *)
Theorem trigger_heuristic (text : jsstring) :
  (looksEvaluable (trim text) = true ↔
     (∃ t, trim text = lit "echo " ++ t)
     ∨ (∃ a b, trim text = a ++ lit "print" ++ b)
     ∨ (∃ a b, trim text = a ++ lit "$" ++ b))
  ∧ ∀ (w : World) (editor : nat),
      lines (document (editors w editor))
        !! line (active (selection (editors w editor))) = Some text →
      looksEvaluable (trim text) = false →
      ∃ w', updateOutput_fire editor w = (Normal tt, w')
        ∧ processes w' = processes w
        ∧ nextPid w' = nextPid w
        ∧ files w' = files w
        ∧ currentDecorationType w' = None
        ∧ errorDecorationType w' = None
        ∧ ∀ d, d ∈ decorations w' → d ∈ decorations w ∧ untracked w d.
Proof.
  split; [apply looksEvaluable_spec |].
  intros w editor Hline Hmiss. exists (cleared w).
  split; [now apply (fire_miss w editor text) |].
  repeat split; try reflexivity; now apply cleared_untracked.
Qed.

End Trigger.

(** ** Closed forms of the executor *)

Module Executor.
Import EffFacts.

Lemma runPHPCode_eq (code : jsstring) (editor currentLine : nat) (w : World) :
  runPHPCode code editor currentLine w =
  (Normal tt,
   let doc := document (editors w editor) in
   if negb (truthy (uri_fsPath doc)) || isUntitled doc then
     spawn (commandLine (livePhpPath w) (liveTempFile w))
       (LiveCallback editor currentLine (liveTempFile w) true (livePhpPath w) (now w))
       (set_files (<[liveTempFile w := wrapped code]> (files w)) w)
   else
     spawn (commandLine (livePhpPath w) (uri_fsPath doc))
       (LiveCallback editor currentLine (uri_fsPath doc) false (livePhpPath w) (now w))
       w).
Proof.
  unfold runPHPCode, writeFileSync, getConfiguration, Date_now, exec. eff.
  destruct (negb (truthy (uri_fsPath (document (editors w editor))))
            || isUntitled (document (editors w editor))); reflexivity.
Qed.

Lemma runSelectedBlock_eq (editor : nat) (w : World) :
  runSelectedBlock editor w =
  (Normal tt,
   let ed := editors w editor in
   let selectedText := getTextIn (document ed) (selection ed) in
   if negb (truthy (trim selectedText)) then
     set_messages
       (messages w ++ [ErrorMessage (lit "No PHP code selected to execute.")]) w
   else
     let phpPath := settingOr (settings w !! "phpPath") (phpPath defaultConfig) in
     spawn (commandLine phpPath (blockTempFile w))
       (BlockCallback editor (blockTempFile w))
       (set_files (<[blockTempFile w := selectedText]> (files w)) w)).
Proof.
  unfold runSelectedBlock, showErrorMessage, writeFileSync, getConfiguration, exec.
  eff.
  destruct (negb (truthy (trim (getTextIn (document (editors w editor))
                                  (selection (editors w editor)))))); reflexivity.
Qed.

(** The world in which the callback of [runPHPCode] shows its result: the
    four lines are on the console and the old annotation is cleared. *)
Lemma runPHPCode_done_eq (editor currentLine : nat) (filePath : jsstring)
    (isTempFile : bool) (phpPath : jsstring) (startTime : Z)
    (error : option ExecException) (stdout stderr : jsstring) (w : World) :
  runPHPCode_done editor currentLine filePath isTempFile phpPath startTime
    error stdout stderr w =
  let logged :=
    set_console
      (console w
         ++ [lit "Executing: " ++ commandLine phpPath filePath]
         ++ [lit "Stdout: " ++ stdout]
         ++ [lit "Stderr: " ++ stderr]
         ++ [lit "Error: " ++ errorToString error]) w in
  let executionTime := toFixed2 (now w - startTime) in
  let output :=
    if bool_decide (is_Some error) || truthy stderr then
      lit "Error: " ++
        (let errorMessage :=
           or_else (trim stderr)
             (match error with
              | Some e => message e
              | None => lit "Unknown error"
              end) in
         if isTempFile then replace errorMessage filePath (lit "Current File")
         else errorMessage)
    else trim stdout in
  match displayInlineOutput output editor currentLine executionTime
          (bool_decide (is_Some error) || truthy stderr) (cleared logged) with
  | (Normal _, w') => (if isTempFile then unlinkSync filePath else mret tt) w'
  | (Throw e, w') => (Throw e, w')
  end.
Proof.
  unfold runPHPCode_done, Date_now, console_log.
  destruct (bool_decide (is_Some error) || truthy stderr); eff;
    rewrite clearOutput_eq; cbn; rewrite <- !app_assoc; reflexivity.
Qed.

End Executor.

(** ** Number formatting *)

Module NumFacts.

Lemma roundHalfEven_nonneg (n dn : Z) :
  0 <= n → 0 < dn → 0 <= roundHalfEven n dn.
Proof.
  intros Hn Hdn. unfold roundHalfEven.
  assert (0 <= n / dn) by (apply Z.div_pos; lia).
  repeat match goal with |- context [if ?b then _ else _] => destruct b end; lia.
Qed.

Lemma scaled_sign (d e : Z) :
  0 < d → 0 <= fst (scaled d e) ∧ 0 < snd (scaled d e).
Proof.
  intros Hd. unfold scaled. destruct (0 <=? e) eqn:He; cbn.
  - apply Z.leb_le in He. split; [lia |].
    assert (0 < 2 ^ e) by (apply Z.pow_pos_nonneg; lia). lia.
  - apply Z.leb_gt in He. split; [| lia].
    assert (0 < 2 ^ (- e)) by (apply Z.pow_pos_nonneg; lia). nia.
Qed.

Lemma hundredths_nonneg (d : Z) : 0 <= d → 0 <= hundredths d.
Proof.
  intros Hd. unfold hundredths. destruct (d =? 0) eqn:H0; [lia |].
  apply Z.eqb_neq in H0. unfold div1000.
  destruct (scaled d (Z.log2 d - 62)) as [n0 dn0].
  set (e := if n0 / dn0 <? 2 ^ 53 then Z.log2 d - 62 else Z.log2 d - 62 + 1).
  destruct (scaled_sign d e ltac:(lia)) as [Hn Hdn].
  destruct (scaled d e) as [n dn]. cbn in Hn, Hdn.
  pose proof (roundHalfEven_nonneg n dn Hn Hdn) as Hm.
  destruct (0 <=? e) eqn:He.
  - apply Z.leb_le in He.
    assert (0 < 2 ^ e) by (apply Z.pow_pos_nonneg; lia). nia.
  - apply Z.leb_gt in He. apply Z.div_pos.
    + assert (0 < 2 ^ (- e)) by (apply Z.pow_pos_nonneg; lia). lia.
    + apply Z.pow_pos_nonneg; lia.
Qed.

(** An elapsed time that is not negative prints without a sign. *)
Lemma toFixed2_nonneg (d : Z) : 0 <= d → nonNegativeSeconds (toFixed2 d).
Proof.
  intros Hd. pose proof (hundredths_nonneg d Hd) as Hn.
  exists (Z.to_N (hundredths d)). unfold toFixed2.
  destruct (d <? 0) eqn:Hneg; [apply Z.ltb_lt in Hneg; lia |].
  rewrite Z.abs_eq by exact Hd. rewrite Z2N.id by exact Hn.
  rewrite Z2N.inj_div by lia. reflexivity.
Qed.

End NumFacts.

(** ** What one event does to the decorations *)

Module Presenter.
Import EffFacts Executor.

Lemma updateOutput_eq (editor : nat) (w : World) :
  updateOutput editor w = (Normal tt, scheduled editor w).
Proof.
  unfold updateOutput, scheduled, stillPending, clearTimeout, setTimeout. eff.
  destruct (timeout w); reflexivity.
Qed.

Lemma deco_eq_refl (w : World) : deco_eq w w.
Proof. now repeat split. Qed.

Lemma deco_eq_trans (w1 w2 w3 : World) :
  deco_eq w1 w2 → deco_eq w2 w3 → deco_eq w1 w3.
Proof. unfold deco_eq. intuition congruence. Qed.

Lemma deco_eq_cleared (w1 w2 : World) :
  deco_eq w1 w2 → deco_eq (cleared w1) (cleared w2).
Proof.
  intros (H1 & H2 & H3 & H4). unfold deco_eq, cleared, untracked. cbn.
  rewrite H1, H2, H3, H4. now repeat split.
Qed.

Lemma deco_eq_shown (w1 w2 : World) (editor : nat) (a : Decoration) :
  deco_eq w1 w2 → deco_eq (shown w1 editor a) (shown w2 editor a).
Proof.
  intros (H1 & H2 & H3 & H4). unfold deco_eq, shown, cleared, untracked. cbn.
  rewrite H1, H2, H3, H4. now repeat split.
Qed.

Lemma unlinkSync_deco (path : jsstring) (w : World) :
  deco_eq (snd (unlinkSync path w)) w.
Proof.
  unfold unlinkSync. destruct (files w !! path); now repeat split.
Qed.

Lemma deco_step_proper (w0 w w' : World) :
  deco_eq w0 w → deco_step w0 w' → deco_step w w'.
Proof.
  intros Heq [H | H | editor a Ha H].
  - apply deco_same. eapply deco_eq_trans; eauto.
  - apply deco_cleared. eapply deco_eq_trans; [exact H |].
    now apply deco_eq_cleared.
  - apply (deco_shown _ _ editor a).
    + destruct Heq as (_ & _ & _ & <-). exact Ha.
    + eapply deco_eq_trans; [exact H |]. now apply deco_eq_shown.
Qed.

Lemma shown_cleared (w : World) (editor : nat) (a : Decoration) :
  shown (cleared w) editor a = shown w editor a.
Proof. unfold shown. now rewrite cleared_idem. Qed.

(** The presenter, called after [clearOutput]. *)
Lemma display_step (output : jsstring) (editor currentLine : nat)
    (executionTime : jsstring) (isError : bool) (w : World) :
  deco_step w
    (snd (displayInlineOutput output editor currentLine executionTime isError
            (cleared w))).
Proof.
  rewrite displayInlineOutput_eq.
  destruct (negb (truthy (trim output))).
  - apply deco_cleared, deco_eq_refl.
  - cbn [editors cleared set_errorDecorationType set_currentDecorationType
         set_decorations].
    destruct (lines (document (editors w editor)) !! currentLine) as [t|]; cbn [snd].
    + eapply deco_shown; [| rewrite shown_cleared; apply deco_eq_refl].
      reflexivity.
    + rewrite cleared_idem. apply deco_cleared, deco_eq_refl.
Qed.

Lemma runPHPCode_done_step (editor currentLine : nat) (filePath : jsstring)
    (isTempFile : bool) (phpPath : jsstring) (startTime : Z)
    (error : option ExecException) (stdout stderr : jsstring) (w : World) :
  deco_step w
    (snd (runPHPCode_done editor currentLine filePath isTempFile phpPath
            startTime error stdout stderr w)).
Proof.
  rewrite runPHPCode_done_eq. cbv zeta.
  match goal with
  | |- context [displayInlineOutput ?o ?e ?l ?t ?b (cleared ?w0)] =>
      pose proof (display_step o e l t b w0) as Hstep;
      destruct (displayInlineOutput o e l t b (cleared w0)) as [[[]|err] w1]
  end; cbn [snd] in *.
  - apply (deco_step_proper _ w) in Hstep; [| now repeat split].
    destruct isTempFile; [| exact Hstep].
    pose proof (unlinkSync_deco filePath w1) as Hu.
    destruct Hstep as [H | H | e a Ha H].
    + apply deco_same. eapply deco_eq_trans; eauto.
    + apply deco_cleared. eapply deco_eq_trans; eauto.
    + apply (deco_shown _ _ e a Ha). eapply deco_eq_trans; eauto.
  - apply (deco_step_proper _ w) in Hstep; [exact Hstep | now repeat split].
Qed.

Lemma runSelectedBlock_done_step (editor : nat) (tempFilePath : jsstring)
    (error : option ExecException) (stdout stderr : jsstring) (w : World) :
  deco_step w
    (snd (runSelectedBlock_done editor tempFilePath error stdout stderr w)).
Proof.
  unfold runSelectedBlock_done, showErrorMessage, showInformationMessage.
  destruct (bool_decide (is_Some error) || truthy stderr); eff.
  - rewrite clearOutput_eq. apply deco_cleared.
    eapply deco_eq_trans; [apply unlinkSync_deco |]. now repeat split.
  - apply deco_same.
    eapply deco_eq_trans; [apply unlinkSync_deco |]. now repeat split.
Qed.

Lemma updateOutput_fire_step (editor : nat) (w : World) :
  deco_step w (snd (updateOutput_fire editor w)).
Proof.
  unfold updateOutput_fire, lineAt. eff.
  destruct (lines (document (editors w editor))
              !! line (active (selection (editors w editor)))) as [text|].
  - destruct (looksEvaluable (trim text)).
    + rewrite runPHPCode_eq. cbv zeta. apply deco_same.
      destruct (negb _ || _); now repeat split.
    + rewrite clearOutput_eq. apply deco_cleared, deco_eq_refl.
  - apply deco_same, deco_eq_refl.
Qed.

(** Every event leaves the decorations alone, clears them, or clears them
    and shows one new decoration of a fresh type. *)
Lemma deliver_step (ev : Event) (w : World) : deco_step w (deliver ev w).
Proof.
  unfold deliver, exec_world. destruct ev as [d|e| |id|p err out serr|ms|e st|e|k v];
    cbn [handle].
  - unfold onDidChangeTextDocument. eff.
    destruct (activeTextEditor w) as [e|]; [| apply deco_same, deco_eq_refl].
    destruct (d =? doc_id (document (editors w e)))%nat;
      [| apply deco_same, deco_eq_refl].
    rewrite updateOutput_eq. apply deco_same. now repeat split.
  - unfold onDidChangeTextEditorSelection. rewrite updateOutput_eq.
    apply deco_same. now repeat split.
  - unfold quickphp_runBlock. eff.
    destruct (activeTextEditor w) as [e|]; [| apply deco_same, deco_eq_refl].
    rewrite runSelectedBlock_eq. cbv zeta. apply deco_same.
    destruct (negb _); now repeat split.
  - unfold timerElapsed.
    destruct (List.find _ (timers w)) as [t|]; [| apply deco_same, deco_eq_refl].
    destruct (due t <=? now w); [| apply deco_same, deco_eq_refl].
    eapply deco_step_proper; [| apply updateOutput_fire_step]. now repeat split.
  - unfold processExited.
    destruct (List.find _ (processes w)) as [c|]; [| apply deco_same, deco_eq_refl].
    destruct (callback c) as [ed cl fp tmp php st | ed fp]; cbn [runCallback].
    + eapply deco_step_proper; [| apply runPHPCode_done_step]. now repeat split.
    + eapply deco_step_proper; [| apply runSelectedBlock_done_step].
      now repeat split.
  - apply deco_same. now repeat split.
  - apply deco_same. now repeat split.
  - apply deco_same. now repeat split.
  - apply deco_same. now repeat split.
Qed.

End Presenter.

(** ** C5: at most one annotation *)

Module SingleAnnotation.
Import EffFacts Presenter.

Lemma inv_proper (w1 w2 : World) :
  deco_eq w1 w2 → annotation_inv w2 ∧ fresh_inv w2 → annotation_inv w1 ∧ fresh_inv w1.
Proof.
  intros (H1 & H2 & H3 & H4). unfold annotation_inv, fresh_inv.
  now rewrite H1, H2, H3, H4.
Qed.

Lemma inv_cleared (w : World) :
  annotation_inv w ∧ fresh_inv w → annotation_inv (cleared w) ∧ fresh_inv (cleared w).
Proof.
  intros [Ha Hf]. unfold annotation_inv, fresh_inv.
  rewrite (cleared_decorations w Ha). cbn.
  split; [split |]; [lia | constructor | constructor].
Qed.

Lemma inv_shown (w : World) (editor : nat) (a : Decoration) :
  deco_type a = nextDecorationType w →
  annotation_inv w ∧ fresh_inv w →
  annotation_inv (shown w editor a) ∧ fresh_inv (shown w editor a)
  ∧ decorations (shown w editor a) = [a].
Proof.
  intros Ht [Ha Hf].
  assert (decorations (shown w editor a) = [a]) as Hd.
  { unfold shown. cbn [decorations set_decorations].
    now rewrite (cleared_decorations w Ha). }
  unfold annotation_inv, fresh_inv. rewrite Hd.
  split; [split | split; [| reflexivity]].
  - cbn. lia.
  - constructor; [| constructor]. left. cbn. now rewrite Ht.
  - constructor; [| constructor]. cbn. lia.
Qed.

Lemma inv_step (w w' : World) :
  deco_step w w' → annotation_inv w ∧ fresh_inv w → annotation_inv w' ∧ fresh_inv w'.
Proof.
  intros [H | H | editor a Ht H] Hinv.
  - now apply (inv_proper _ _ H).
  - apply (inv_proper _ _ H). now apply inv_cleared.
  - apply (inv_proper _ _ H). split; now apply inv_shown.
Qed.

Lemma inv_initial dir t0 eds act cfg fs :
  annotation_inv (initial dir t0 eds act cfg fs)
  ∧ fresh_inv (initial dir t0 eds act cfg fs).
Proof.
  unfold annotation_inv, fresh_inv. cbn.
  split; [split |]; [lia | constructor | constructor].
Qed.

(** The invariants hold in every world that the event loop reaches. *)
Lemma inv_run (evs : list Event) (w : World) :
  annotation_inv w ∧ fresh_inv w →
  annotation_inv (run evs w) ∧ fresh_inv (run evs w).
Proof.
  revert w. induction evs as [|ev evs IH]; intros w Hinv; [exact Hinv |].
  apply IH. eapply inv_step; [apply deliver_step | exact Hinv].
Qed.

(** C5. In every world that the extension reaches from its activation, an
    editor shows at most one annotation; and when the presenter renders a
    new text there, the screen holds that one decoration only, of a
    decoration type newer than anything shown before: the prior
    decoration is disposed. *)
Theorem single_annotation (dir : jsstring) (t0 : Z) (eds : nat → TextEditor)
    (act : option nat) (cfg : gmap string Setting)
    (fs : gmap jsstring jsstring) (evs : list Event) :
  let w := run evs (initial dir t0 eds act cfg fs) in
  (∀ editor, (length (annotations w editor) <= 1)%nat)
  ∧ ∀ (output : jsstring) (editor currentLine : nat)
      (executionTime : jsstring) (isError : bool) (targetLineText : jsstring),
      trim output ≠ [] →
      lines (document (editors w editor)) !! currentLine = Some targetLineText →
      ∃ a,
        decorations
          (exec_world
             (displayInlineOutput output editor currentLine executionTime isError) w)
        = [a]
        ∧ deco_type a = nextDecorationType w
        ∧ ∀ d, d ∈ decorations w → (deco_type d < deco_type a)%nat.
Proof.
  intros w.
  destruct (inv_run evs _ (inv_initial dir t0 eds act cfg fs)) as [Ha Hf].
  fold w in Ha, Hf. split.
  - intros editor. unfold annotations.
    etransitivity; [apply length_filter | apply Ha].
  - intros output editor currentLine executionTime isError target Hout Hline.
    unfold exec_world. rewrite displayInlineOutput_eq, Hline.
    destruct (trim output) as [|c s] eqn:Ht; [congruence |]. cbn [truthy negb snd].
    eexists. split; [| split].
    + eapply inv_shown; [reflexivity | now split].
    + reflexivity.
    + intros d Hd. cbn [deco_type annotation].
      unfold fresh_inv in Hf. rewrite Forall_forall in Hf. now apply Hf.
Qed.

End SingleAnnotation.

(** ** What one event does to the timers *)

Module Scheduler.
Import EffFacts Executor Trigger Presenter SingleAnnotation.

Lemma timer_eq_refl (w : World) : timer_eq w w.
Proof. now repeat split. Qed.

Lemma timer_eq_trans (w1 w2 w3 : World) :
  timer_eq w1 w2 → timer_eq w2 w3 → timer_eq w1 w3.
Proof. unfold timer_eq. intuition congruence. Qed.

Lemma unlinkSync_timers (path : jsstring) (w : World) :
  timer_eq (snd (unlinkSync path w)) w.
Proof. unfold unlinkSync. destruct (files w !! path); now repeat split. Qed.

Lemma displayInlineOutput_timers (output : jsstring) (editor currentLine : nat)
    (executionTime : jsstring) (isError : bool) (w : World) :
  timer_eq
    (snd (displayInlineOutput output editor currentLine executionTime isError w)) w.
Proof.
  rewrite displayInlineOutput_eq.
  destruct (negb (truthy (trim output))); [apply timer_eq_refl |].
  destruct (lines (document (editors w editor)) !! currentLine);
    now repeat split.
Qed.

Lemma runPHPCode_done_timers (editor currentLine : nat) (filePath : jsstring)
    (isTempFile : bool) (phpPath : jsstring) (startTime : Z)
    (error : option ExecException) (stdout stderr : jsstring) (w : World) :
  timer_eq
    (snd (runPHPCode_done editor currentLine filePath isTempFile phpPath
            startTime error stdout stderr w)) w.
Proof.
  rewrite runPHPCode_done_eq. cbv zeta.
  match goal with
  | |- context [displayInlineOutput ?o ?e ?l ?t ?b ?w0] =>
      pose proof (displayInlineOutput_timers o e l t b w0) as Hd;
      destruct (displayInlineOutput o e l t b w0) as [[[]|err] w1]
  end; cbn [snd] in *.
  - destruct isTempFile.
    + eapply timer_eq_trans; [apply unlinkSync_timers |].
      eapply timer_eq_trans; [exact Hd |]. now repeat split.
    + eapply timer_eq_trans; [exact Hd |]. now repeat split.
  - eapply timer_eq_trans; [exact Hd |]. now repeat split.
Qed.

Lemma runSelectedBlock_done_timers (editor : nat) (tempFilePath : jsstring)
    (error : option ExecException) (stdout stderr : jsstring) (w : World) :
  timer_eq
    (snd (runSelectedBlock_done editor tempFilePath error stdout stderr w)) w.
Proof.
  unfold runSelectedBlock_done, showErrorMessage, showInformationMessage.
  destruct (bool_decide (is_Some error) || truthy stderr); eff.
  - rewrite clearOutput_eq.
    eapply timer_eq_trans; [apply unlinkSync_timers |]. now repeat split.
  - eapply timer_eq_trans; [apply unlinkSync_timers |]. now repeat split.
Qed.

(** The timer callback arms no timer and counts no evaluation itself. *)
Lemma updateOutput_fire_timers (editor : nat) (w : World) :
  timer_eq (snd (updateOutput_fire editor w)) w.
Proof.
  unfold updateOutput_fire, lineAt. eff.
  destruct (lines (document (editors w editor))
              !! line (active (selection (editors w editor)))) as [text|].
  - destruct (looksEvaluable (trim text)).
    + rewrite runPHPCode_eq. cbv zeta. destruct (negb _ || _); now repeat split.
    + rewrite clearOutput_eq. now repeat split.
  - apply timer_eq_refl.
Qed.

Lemma stillPending_nil (w : World) : timer_inv w → stillPending w = [].
Proof.
  unfold stillPending. intros [H | [t [H Ht]]]; rewrite H.
  - now destruct (timeout w).
  - rewrite Ht. rewrite filter_cons_False; [reflexivity |].
    rewrite Nat.eqb_refl. discriminate.
Qed.

(** After [updateOutput] exactly the new timer is pending. *)
Lemma scheduled_timers (editor : nat) (w : World) :
  timer_inv w →
  timers (scheduled editor w) =
  [{| timer_id := nextTimer w; due := now w + 300; timer_editor := editor |}].
Proof.
  intros Hinv. unfold scheduled. cbn [timers set_timeout set_nextTimer set_timers].
  now rewrite (stillPending_nil w Hinv).
Qed.

Lemma timer_inv_scheduled (editor : nat) (w : World) :
  timer_inv w → timer_inv (scheduled editor w).
Proof.
  intros Hinv. right. eexists. split; [now apply scheduled_timers |]. reflexivity.
Qed.

Lemma timer_inv_proper (w1 w2 : World) :
  timer_eq w1 w2 → timer_inv w2 → timer_inv w1.
Proof. intros (H1 & H2 & _). unfold timer_inv. now rewrite H1, H2. Qed.

Lemma reaches_handle (ev : Event) (w : World) (e : nat) :
  reaches ev w = Some e → handle ev w = (Normal tt, scheduled e w).
Proof.
  destruct ev as [d|x| |id|p err out serr|ms|x st|x|k v]; cbn; try discriminate.
  - unfold onDidChangeTextDocument. eff.
    destruct (activeTextEditor w) as [a|]; [| discriminate].
    destruct (d =? doc_id (document (editors w a)))%nat; [| discriminate].
    intros [= ->]. apply updateOutput_eq.
  - intros [= ->]. apply updateOutput_eq.
Qed.

(** A notification either reaches [updateOutput] or changes nothing. *)
Lemma notification_cases (ev : Event) (w : World) :
  match ev with
  | DidChangeTextDocument _ | DidChangeTextEditorSelection _ =>
      match reaches ev w with
      | Some e => deliver ev w = scheduled e w
      | None => deliver ev w = w
      end
  | _ => True
  end.
Proof.
  destruct ev as [d|x| |id|p err out serr|ms|x st|x|k v]; try exact I;
    unfold deliver, exec_world.
  - destruct (reaches _ w) as [e|] eqn:Hr.
    + now rewrite (reaches_handle _ _ _ Hr).
    + cbn in *. unfold onDidChangeTextDocument. eff.
      destruct (activeTextEditor w) as [a|]; [| reflexivity].
      destruct (d =? doc_id (document (editors w a)))%nat;
        [discriminate | reflexivity].
  - cbn. now rewrite updateOutput_eq.
Qed.


Lemma timer_inv_filter (id : nat) (w w' : World) :
  timers w' = filter (fun t => (timer_id t =? id)%nat = false) (timers w) →
  timeout w' = timeout w →
  timer_inv w → timer_inv w'.
Proof.
  intros Ht Ho [H | [t [H Hid]]]; unfold timer_inv; rewrite Ht, Ho, H.
  - now left.
  - rewrite filter_cons. destruct (decide _); [right; eauto | now left].
Qed.

(** Every event keeps [timer_inv]. *)
Lemma timer_inv_deliver (ev : Event) (w : World) :
  timer_inv w → timer_inv (deliver ev w).
Proof.
  intros Hinv. pose proof (notification_cases ev w) as Hn.
  destruct ev as [d|e| |id|p err out serr|ms|e st|e|k v].
  - destruct (reaches _ w); rewrite Hn; [now apply timer_inv_scheduled | easy].
  - destruct (reaches _ w); rewrite Hn; [now apply timer_inv_scheduled | easy].
  - unfold deliver, exec_world. cbn. unfold quickphp_runBlock. eff.
    destruct (activeTextEditor w); [| exact Hinv].
    rewrite runSelectedBlock_eq. cbv zeta. destruct (negb _); exact Hinv.
  - unfold deliver, exec_world. cbn. unfold timerElapsed.
    destruct (List.find _ (timers w)) as [t|]; [| exact Hinv].
    destruct (due t <=? now w); [| exact Hinv].
    eapply timer_inv_proper; [apply updateOutput_fire_timers |].
    eapply (timer_inv_filter id w); [reflexivity | reflexivity | exact Hinv].
  - unfold deliver, exec_world. cbn. unfold processExited.
    destruct (List.find _ (processes w)) as [c|]; [| exact Hinv].
    destruct (callback c) as [ed cl fp tmp php st | ed fp]; cbn [runCallback].
    + eapply timer_inv_proper; [apply runPHPCode_done_timers | exact Hinv].
    + eapply timer_inv_proper; [apply runSelectedBlock_done_timers | exact Hinv].
  - exact Hinv.
  - exact Hinv.
  - exact Hinv.
  - exact Hinv.
Qed.

Lemma timer_inv_run (evs : list Event) (w : World) :
  timer_inv w → timer_inv (run evs w).
Proof.
  revert w. induction evs as [|ev evs IH]; intros w Hinv; [exact Hinv |].
  apply IH. now apply timer_inv_deliver.
Qed.













End Scheduler.

(** ** C3 and C9: which file the interpreter runs on *)

Module Targets.
Import EffFacts Executor Trigger.

Lemma truthy_false (s : jsstring) : truthy s = false ↔ s = [].
Proof. destruct s; cbn; split; congruence. Qed.

(** C3. A live-mode evaluation (the timer callback on a line that passes
    the heuristic) completes and starts one interpreter process.  For a
    document with a file path that is not untitled the command names that
    path and no file is written; otherwise the whole text between
    [<?php] and [?>] lines is written to [quickphp.php] in the extension's
    directory and the command names that file. *)
Theorem live_mode_target (w : World) (editor : nat) (text : jsstring) :
  let doc := document (editors w editor) in
  let currentLine := line (active (selection (editors w editor))) in
  lines doc !! currentLine = Some text →
  looksEvaluable (trim text) = true →
  ∃ w', updateOutput_fire editor w = (Normal tt, w')
    ∧ nextPid w' = S (nextPid w)
    ∧ (uri_fsPath doc ≠ [] → isUntitled doc = false →
         files w' = files w
         ∧ processes w' =
             processes w
               ++ [{| pid := nextPid w;
                      command :=
                        livePhpPath w ++ lit " " ++ quote ++ uri_fsPath doc ++ quote;
                      callback :=
                        LiveCallback editor currentLine (uri_fsPath doc) false
                          (livePhpPath w) (now w) |}])
    ∧ (uri_fsPath doc = [] ∨ isUntitled doc = true →
         liveTempFile w = dirname w ++ lit "/quickphp.php"
         ∧ files w' =
             <[liveTempFile w :=
                 lit "<?php" ++ newline ++ getText doc ++ newline ++ lit "?>"]>
               (files w)
         ∧ processes w' =
             processes w
               ++ [{| pid := nextPid w;
                      command :=
                        livePhpPath w ++ lit " " ++ quote ++ liveTempFile w ++ quote;
                      callback :=
                        LiveCallback editor currentLine (liveTempFile w) true
                          (livePhpPath w) (now w) |}]).
Proof.
  intros doc currentLine Hline Hhit.
  rewrite (fire_hit w editor text Hline Hhit), runPHPCode_eq. cbv zeta.
  fold doc currentLine. eexists. split; [reflexivity |].
  destruct (negb (truthy (uri_fsPath doc)) || isUntitled doc) eqn:Hc.
  - split; [reflexivity |]. split.
    + intros Hp Hu. rewrite Hu, orb_false_r in Hc.
      apply negb_true_iff, truthy_false in Hc. contradiction.
    + intros _. repeat split.
  - split; [reflexivity |]. apply orb_false_iff in Hc. destruct Hc as [Hp Hu].
    apply negb_false_iff in Hp. split.
    + intros _ _. repeat split.
    + intros [H | H]; [rewrite H in Hp; discriminate | congruence].
Qed.

(** C9. [runSelectedBlock] completes.  On an empty or white-space-only
    selection it shows an error message, starts no process and writes no
    file.  On any other selection it writes the selection, unchanged, to
    [quickphp_block.php] in the extension's directory (a file other than the
    one of the live mode) and starts the interpreter on that file. *)
Theorem block_mode (w : World) (editor : nat) :
  let selectedText :=
    getTextIn (document (editors w editor)) (selection (editors w editor)) in
  ∃ w', runSelectedBlock editor w = (Normal tt, w')
    ∧ (Forall (fun c => isWhiteSpace c = true) selectedText →
         messages w' =
           messages w ++ [ErrorMessage (lit "No PHP code selected to execute.")]
         ∧ processes w' = processes w
         ∧ nextPid w' = nextPid w
         ∧ files w' = files w)
    ∧ (¬ Forall (fun c => isWhiteSpace c = true) selectedText →
         blockTempFile w = dirname w ++ lit "/quickphp_block.php"
         ∧ blockTempFile w ≠ liveTempFile w
         ∧ messages w' = messages w
         ∧ files w' = <[blockTempFile w := selectedText]> (files w)
         ∧ nextPid w' = S (nextPid w)
         ∧ processes w' =
             processes w
               ++ [{| pid := nextPid w;
                      command :=
                        settingOr (settings w !! "phpPath") (lit "php")
                          ++ lit " " ++ quote ++ blockTempFile w ++ quote;
                      callback := BlockCallback editor (blockTempFile w) |}]).
Proof.
  intros selectedText. rewrite runSelectedBlock_eq. cbv zeta. fold selectedText.
  eexists. split; [reflexivity |].
  destruct (negb (truthy (trim selectedText))) eqn:Hc.
  - apply negb_true_iff, truthy_false, JSFacts.trim_nil in Hc. split.
    + intros _. repeat split.
    + intros Hn. contradiction.
  - apply negb_false_iff in Hc. split.
    + intros Hws. apply JSFacts.trim_nil in Hws. rewrite Hws in Hc. discriminate.
    + intros _. repeat split.
      unfold blockTempFile, liveTempFile, path_join. intros Heq.
      apply app_inv_head in Heq. discriminate.
Qed.

End Targets.

(** ** C4, C7 and C10: what the annotation reads *)

Module Annotation.
Import EffFacts Executor NumFacts Presenter Targets.

Lemma unlinkSync_decorations (path : jsstring) (w : World) :
  decorations (snd (unlinkSync path w)) = decorations w
  ∧ currentDecorationType (snd (unlinkSync path w)) = currentDecorationType w
  ∧ errorDecorationType (snd (unlinkSync path w)) = errorDecorationType w.
Proof. unfold unlinkSync. destruct (files w !! path); now repeat split. Qed.

(** What the callback of [runPHPCode] leaves on screen when the presenter
    completes. *)
Lemma after_display (b : bool) (path : jsstring) (r : Completion unit * World) :
  let w' := snd (match r with
                 | (Normal _, w1) => (if b then unlinkSync path else mret tt) w1
                 | (Throw e, w1) => (Throw e, w1)
                 end) in
  decorations w' = decorations (snd r)
  ∧ currentDecorationType w' = currentDecorationType (snd r)
  ∧ errorDecorationType w' = errorDecorationType (snd r).
Proof.
  destruct r as [[[]|e] w1]; cbn [snd]; [| now repeat split].
  destruct b; [apply unlinkSync_decorations | now repeat split].
Qed.

Lemma trim_Error_prefix (m : jsstring) : truthy (trim (lit "Error: " ++ m)) = true.
Proof.
  destruct (trim (lit "Error: " ++ m)) eqn:Ht; [| reflexivity].
  apply JSFacts.trim_nil in Ht. inversion Ht as [|? ? Hc _]. discriminate.
Qed.

(** C4. When the interpreter of a live-mode run exits without error,
    with an empty error stream and an output that is not blank, and the
    target line still exists, the callback leaves one new decoration at the
    end of the target line.  After one leading blank its text reads
    [// <output> (Execution Time: <t>s)], where [<output>] is the trimmed
    output and [<t>] the elapsed time in seconds with two decimals, which
    is not negative when the clock has not gone back; its colour is the
    configured one.  In a world that satisfies the annotation invariant it
    is the only decoration. *)
Theorem success_annotation (w : World) (editor currentLine : nat)
    (filePath : jsstring) (isTempFile : bool) (phpPath : jsstring)
    (startTime : Z) (stdout targetLineText : jsstring) :
  trim stdout ≠ [] →
  lines (document (editors w editor)) !! currentLine = Some targetLineText →
  startTime <= now w →
  let w' := exec_world
              (runPHPCode_done editor currentLine filePath isTempFile phpPath
                 startTime None stdout []) w in
  let t := toFixed2 (now w - startTime) in
  let a := {| deco_type := nextDecorationType w;
              deco_editor := editor;
              deco_line := currentLine;
              deco_character := length targetLineText;
              contentText :=
                lit " " ++ lit "// " ++ trim stdout
                  ++ lit " (Execution Time: " ++ t ++ lit "s)";
              color := successColor w |} in
  nonNegativeSeconds t
  ∧ currentDecorationType w' = Some (nextDecorationType w)
  ∧ decorations w' =
      filter (fun d => shows editor (nextDecorationType w) d = false)
        (filter (untracked w) (decorations w)) ++ [a]
  ∧ (annotation_inv w → decorations w' = [a]).
Proof.
  intros Hout Hline Htime w' t a.
  split; [apply toFixed2_nonneg; lia |].
  assert (currentDecorationType w' = Some (nextDecorationType w)
          ∧ decorations w' =
              filter (fun d => shows editor (nextDecorationType w) d = false)
                (filter (untracked w) (decorations w)) ++ [a]) as [Hc Hd].
  { subst w'. unfold exec_world. rewrite runPHPCode_done_eq. cbv zeta.
    match goal with
    | |- context [displayInlineOutput ?o ?e ?l ?x ?b ?w0] =>
        destruct (after_display isTempFile filePath
                    (displayInlineOutput o e l x b w0)) as (Hd & Hc & _)
    end.
    cbv zeta in Hd, Hc. rewrite Hd, Hc. clear Hd Hc.
    change (bool_decide (is_Some (@None ExecException)) || truthy [])
      with false.
    cbv iota. rewrite displayInlineOutput_eq, JSFacts.trim_idem.
    cbn [editors cleared set_errorDecorationType set_currentDecorationType
         set_decorations set_console].
    destruct (truthy (trim stdout)) eqn:Ht;
      [| apply truthy_false in Ht; congruence].
    cbn [negb]. rewrite Hline, shown_cleared. cbn [snd]. split; reflexivity. }
  split; [exact Hc |]. split; [exact Hd |].
  intros Hinv. rewrite Hd.
  pose proof (cleared_decorations w Hinv) as Hnil. cbn in Hnil.
  now rewrite Hnil.
Qed.

(** C10. When a live-mode run counts as failed (an error object or a
    non-empty error stream) and the target line still exists, the callback
    leaves one new red decoration whose text, after the comment marker,
    starts with [Error: ] twice: once from the callback, once from the
    presenter. *)
Theorem failure_double_prefix (w : World) (editor currentLine : nat)
    (filePath : jsstring) (isTempFile : bool) (phpPath : jsstring)
    (startTime : Z) (error : option ExecException)
    (stdout stderr targetLineText : jsstring) :
  is_Some error ∨ stderr ≠ [] →
  lines (document (editors w editor)) !! currentLine = Some targetLineText →
  let w' := exec_world
              (runPHPCode_done editor currentLine filePath isTempFile phpPath
                 startTime error stdout stderr) w in
  let errorMessage :=
    or_else (trim stderr)
      (match error with
       | Some e => message e
       | None => lit "Unknown error"
       end) in
  let shownMessage :=
    if isTempFile then replace errorMessage filePath (lit "Current File")
    else errorMessage in
  let a := {| deco_type := nextDecorationType w;
              deco_editor := editor;
              deco_line := currentLine;
              deco_character := length targetLineText;
              contentText :=
                lit " // " ++ lit "Error: " ++ lit "Error: " ++ shownMessage
                  ++ lit " (Execution Time: " ++ toFixed2 (now w - startTime)
                  ++ lit "s)";
              color := lit "red" |} in
  currentDecorationType w' = Some (nextDecorationType w)
  ∧ decorations w' =
      filter (fun d => shows editor (nextDecorationType w) d = false)
        (filter (untracked w) (decorations w)) ++ [a]
  ∧ (annotation_inv w → decorations w' = [a]).
Proof.
  intros Hfail Hline w' errorMessage shownMessage a.
  assert (bool_decide (is_Some error) || truthy stderr = true) as Hb.
  { destruct Hfail as [H | H].
    - now rewrite (bool_decide_eq_true_2 _ H).
    - destruct stderr; [congruence | apply orb_true_r]. }
  assert (currentDecorationType w' = Some (nextDecorationType w)
          ∧ decorations w' =
              filter (fun d => shows editor (nextDecorationType w) d = false)
                (filter (untracked w) (decorations w)) ++ [a]) as [Hc Hd].
  { subst w'. unfold exec_world. rewrite runPHPCode_done_eq. cbv zeta.
    match goal with
    | |- context [displayInlineOutput ?o ?e ?l ?x ?b ?w0] =>
        destruct (after_display isTempFile filePath
                    (displayInlineOutput o e l x b w0)) as (Hd & Hc & _)
    end.
    cbv zeta in Hd, Hc. rewrite Hd, Hc. clear Hd Hc.
    rewrite displayInlineOutput_eq, Hb.
    fold errorMessage. fold shownMessage.
    rewrite trim_Error_prefix.
    cbn [negb editors cleared set_errorDecorationType set_currentDecorationType
         set_decorations set_console].
    rewrite Hline, shown_cleared. cbn [snd]. split; reflexivity. }
  split; [exact Hc |]. split; [exact Hd |].
  intros Hinv. rewrite Hd.
  pose proof (cleared_decorations w Hinv) as Hnil. cbn in Hnil.
  now rewrite Hnil.
Qed.

(** C7. The presenter is called in one place only, the callback of
    [runPHPCode], and there [clearOutput] has run just before it.  At every
    such call with an empty or white-space-only text the presenter returns
    at once and renders nothing: no decoration type is made, both handles
    are [undefined], and nothing of what they showed before the callback
    is on screen, neither after the call nor after the callback. *)
Theorem presenter_empty_text (w : World) (editor currentLine : nat)
    (filePath : jsstring) (isTempFile : bool) (phpPath : jsstring)
    (startTime : Z) (error : option ExecException) (stdout stderr : jsstring) :
  let output := presented filePath isTempFile error stdout stderr in
  let w0 := cleared (logged phpPath filePath error stdout stderr w) in
  let call :=
    displayInlineOutput output editor currentLine
      (toFixed2 (now w - startTime)) (failed error stderr) w0 in
  let done :=
    runPHPCode_done editor currentLine filePath isTempFile phpPath startTime
      error stdout stderr w in
  done = match call with
         | (Normal _, w1) => cleanup filePath isTempFile w1
         | (Throw e, w1) => (Throw e, w1)
         end
  ∧ (blank output →
       call = (Normal tt, w0)
       ∧ nextDecorationType w0 = nextDecorationType w
       ∧ currentDecorationType w0 = None
       ∧ errorDecorationType w0 = None
       ∧ decorations w0 = filter (untracked w) (decorations w)
       ∧ (annotation_inv w → decorations w0 = [])
       ∧ currentDecorationType (snd done) = None
       ∧ errorDecorationType (snd done) = None
       ∧ decorations (snd done) = filter (untracked w) (decorations w)).
Proof.
  intros output w0 call done.
  assert (done = match call with
                 | (Normal _, w1) => cleanup filePath isTempFile w1
                 | (Throw e, w1) => (Throw e, w1)
                 end) as Hdone.
  { subst done call w0 output. rewrite runPHPCode_done_eq. reflexivity. }
  split; [exact Hdone |].
  intros Hws. apply JSFacts.trim_nil in Hws.
  assert (call = (Normal tt, w0)) as Hcall.
  { subst call. rewrite displayInlineOutput_eq. fold output. now rewrite Hws. }
  split; [exact Hcall |].
  split; [reflexivity |]. split; [reflexivity |]. split; [reflexivity |].
  split; [reflexivity |].
  split; [intros Hinv; apply (cleared_decorations w Hinv) |].
  rewrite Hdone, Hcall. unfold cleanup.
  destruct isTempFile; [| now repeat split].
  destruct (unlinkSync_decorations filePath w0) as (Hd & Hc & He).
  rewrite Hd, Hc, He. now repeat split.
Qed.

End Annotation.

(** ** C6 and C8: where the code departs from the claim *)

Module Departures.
Import EffFacts Presenter.

(** C6.  The live-mode run of [Demo.warnRunning] used the temporary file and
    fails with two warnings that both name it.  [String.prototype.replace]
    with a string pattern replaces the first occurrence only: the
    annotation shows [Current File] once and the path of the temporary
    file once. *)
Theorem temp_path_leaks :
  liveTempFile Demo.warnRunning = lit "/ext/dist/quickphp.php"
  ∧ map contentText (decorations Demo.warnDone) =
      [lit " // Error: Error: PHP Warning:  Undefined variable $a in Current File on line 2"
         ++ newline
         ++ lit "PHP Warning:  Undefined variable $b in /ext/dist/quickphp.php on line 3 (Execution Time: 0.04s)"]
  ∧ Forall (fun d => includes (contentText d) (liveTempFile Demo.warnRunning) = true)
      (decorations Demo.warnDone)
  ∧ ¬ every_occurrence_replaced.
Proof.
  split; [reflexivity |]. split; [vm_compute; reflexivity |].
  split; [vm_compute; repeat constructor |].
  intros H.
  specialize (H (set_processes [] (deliver (Elapse 40) Demo.warnRunning)) 0%nat 0%nat
                (lit "php") 1300 None [] Demo.warnings).
  match type of H with
  | ∀ d, _ → let w' := ?w in _ =>
      assert (∃ a, decorations w = [a]
                   ∧ includes (contentText a) (lit "/ext/dist/quickphp.php") = true)
        as (a & Ha & Hi) by (vm_compute; eauto)
  end.
  specialize (H a eq_refl). cbv zeta in H. rewrite Ha in H.
  specialize (H ltac:(constructor)).
  change (liveTempFile _) with (lit "/ext/dist/quickphp.php") in H.
  congruence.
Qed.

(** C8.  [updateOutput] arms its timer with [defaultConfig.executionDelay]:
    the new timer is due 300 ms from now whatever the settings store holds.
    In [Demo.slowIdle] the settings ask for 1000 ms and the timer is due
    after 300 ms. *)
Theorem delay_ignores_settings :
  (∀ (w : World) (editor : nat),
     last (timers (exec_world (updateOutput editor) w)) =
     Some {| timer_id := nextTimer w; due := now w + 300; timer_editor := editor |})
  ∧ settings Demo.slowIdle !! "executionDelay" = Some (SNumber 1000)
  ∧ timers (exec_world (updateOutput 0) Demo.slowIdle) =
      [{| timer_id := 0; due := now Demo.slowIdle + 300; timer_editor := 0 |}]
  ∧ ¬ delay_from_settings.
Proof.
  split; [| split; [| split]].
  - intros w editor. unfold exec_world. rewrite updateOutput_eq. cbn.
    apply last_snoc.
  - vm_compute. reflexivity.
  - vm_compute. reflexivity.
  - intros H.
    specialize (H Demo.slowIdle 0%nat 1000%N
                  {| timer_id := 0; due := 1300; timer_editor := 0 |}).
    assert (1300 = 1000 + 1000) as Habs; [| discriminate Habs].
    apply H; [vm_compute; reflexivity |].
    vm_compute. constructor.
Qed.

End Departures.

(** ** The theorems at work on the sample sessions *)

Module Witnesses.
Import Trigger Scheduler SingleAnnotation Targets Annotation.

(** [helloNote]: the greeting is annotated and the cursor sits on a
    comment; the timer callback clears the annotation and runs nothing. *)
Lemma trigger_heuristic_witness :
  looksEvaluable (trim (lit "// done")) = false
  ∧ decorations Demo.helloNote ≠ []
  ∧ ∃ w', updateOutput_fire 0 Demo.helloNote = (Normal tt, w')
      ∧ processes w' = processes Demo.helloNote
      ∧ files w' = files Demo.helloNote
      ∧ currentDecorationType w' = None.
Proof.
  split; [reflexivity |]. split; [vm_compute; discriminate |].
  destruct (proj2 (trigger_heuristic (lit "// done")) Demo.helloNote 0%nat
              eq_refl eq_refl)
    as (w' & H1 & H2 & _ & H4 & H5 & _).
  exists w'. repeat split; assumption.
Defined.


(** The unsaved greeting goes through the temporary file, the saved file
    is run where it is. *)
Lemma live_mode_target_witness :
  (∃ w', updateOutput_fire 0 Demo.helloIdle = (Normal tt, w')
     ∧ files w' !! lit "/ext/dist/quickphp.php" =
         Some (lit "<?php" ++ newline ++ Demo.helloLine ++ newline ++ lit "?>")
     ∧ map command (processes w') =
         [lit "php " ++ quote ++ lit "/ext/dist/quickphp.php" ++ quote])
  ∧ (∃ w', updateOutput_fire 0 Demo.savedIdle = (Normal tt, w')
       ∧ files w' = ∅
       ∧ map command (processes w') =
           [lit "php " ++ quote ++ lit "/home/u/site/index.php" ++ quote]).
Proof.
  split.
  - destruct (live_mode_target Demo.helloIdle 0%nat Demo.helloLine)
      as (w' & H1 & _ & _ & H3); [vm_compute; reflexivity .. |].
    destruct (H3 (or_intror eq_refl)) as (Hn & Hf & Hp).
    exists w'. split; [exact H1 |]. rewrite Hf, Hp, Hn. split.
    + rewrite lookup_insert_eq. reflexivity.
    + vm_compute. reflexivity.
  - destruct (live_mode_target Demo.savedIdle 0%nat (lit "print_r($_GET);"))
      as (w' & H1 & _ & H2 & _); [vm_compute; reflexivity .. |].
    destruct H2 as (Hf & Hp); [vm_compute; discriminate | reflexivity |].
    exists w'. split; [exact H1 |]. rewrite Hf, Hp. split.
    + reflexivity.
    + vm_compute. reflexivity.
Defined.

(** The document whose sole content is [echo "Hello, QuickPHP!";], run to
    its end in [Demo.helloDone]. *)
Lemma success_annotation_witness :
  map contentText (decorations Demo.helloDone) =
    [lit " // Hello, QuickPHP! (Execution Time: 0.04s)"]
  ∧ nonNegativeSeconds (lit "0.04").
Proof.
  pose (w := set_processes [] (deliver (Elapse 37) Demo.helloRunning)).
  assert (Demo.helloDone =
          exec_world
            (runPHPCode_done 0 0 (lit "/ext/dist/quickphp.php") true (lit "php")
               1300 None (lit "Hello, QuickPHP!") []) w) as Hrun
    by (vm_compute; reflexivity).
  assert (annotation_inv w) as Hinv
    by (split; [vm_compute; lia | vm_compute; constructor]).
  destruct (success_annotation w 0%nat 0%nat (lit "/ext/dist/quickphp.php") true
              (lit "php") 1300 (lit "Hello, QuickPHP!") Demo.helloLine)
    as (Ht & _ & _ & Hd).
  - vm_compute. discriminate.
  - vm_compute. reflexivity.
  - vm_compute. discriminate.
  - split.
    + rewrite Hrun, (Hd Hinv). vm_compute. reflexivity.
    + assert (lit "0.04" = toFixed2 (now w - 1300)) as -> by (vm_compute; reflexivity).
      exact Ht.
Defined.

(** The greeting is on screen; showing another text replaces it. *)
Lemma single_annotation_witness :
  length (annotations Demo.helloDone 0) = 1%nat
  ∧ ∃ a, decorations
           (exec_world (displayInlineOutput (lit "again") 0 0 (lit "0.01") false)
              Demo.helloDone) = [a]
      ∧ deco_type a = nextDecorationType Demo.helloDone
      ∧ ∀ d, d ∈ decorations Demo.helloDone → (deco_type d < deco_type a)%nat.
Proof.
  split; [vm_compute; reflexivity |].
  assert (Demo.helloDone =
          run [DidChangeTextEditorSelection 0; Elapse 300; TimerElapsed 0;
               Elapse 37; ProcessExited 0 None (lit "Hello, QuickPHP!") []]
            (initial (lit "/ext/dist") 1000 (fun _ => Demo.helloEditor)
               (Some 0%nat) ∅ ∅)) as ->
    by (vm_compute; reflexivity).
  apply (proj2 (single_annotation (lit "/ext/dist") 1000 (fun _ => Demo.helloEditor)
                  (Some 0%nat) ∅ ∅
                  [DidChangeTextEditorSelection 0; Elapse 300; TimerElapsed 0;
                   Elapse 37; ProcessExited 0 None (lit "Hello, QuickPHP!") []])
           (lit "again") 0%nat 0%nat (lit "0.01") false Demo.helloLine).
  - vm_compute. discriminate.
  - vm_compute. reflexivity.
Defined.

(** [Scenes.helloAgain]: the greeting is on screen and a second run is in
    flight; it prints nothing but blanks, and the greeting goes. *)
Lemma presenter_empty_text_witness :
  decorations Scenes.helloAgain ≠ []
  ∧ decorations
      (snd (runPHPCode_done 0 0 (lit "/ext/dist/quickphp.php") true (lit "php")
              1637 None (lit "  ") [] Scenes.helloAgain)) = []
  ∧ nextDecorationType Scenes.helloAgain = 1%nat.
Proof.
  split; [vm_compute; discriminate |].
  destruct (proj2 (presenter_empty_text Scenes.helloAgain 0 0
                     (lit "/ext/dist/quickphp.php") true (lit "php") 1637
                     None (lit "  ") []))
    as (_ & _ & _ & _ & _ & _ & _ & _ & Hd).
  - vm_compute. repeat constructor.
  - split; [| vm_compute; reflexivity]. rewrite Hd. vm_compute. reflexivity.
Defined.

(** A selection of blanks, and a selection of a statement. *)
Lemma block_mode_witness :
  (∃ w', runSelectedBlock 0 Demo.blankSelection = (Normal tt, w')
     ∧ messages w' = [ErrorMessage (lit "No PHP code selected to execute.")]
     ∧ processes w' = []
     ∧ files w' = ∅)
  ∧ (∃ w', runSelectedBlock 0 Demo.statementSelection = (Normal tt, w')
       ∧ files w' !! lit "/ext/dist/quickphp_block.php" =
           Some (lit "<?php" ++ newline ++ lit "   " ++ newline ++ lit "echo 1;")
       ∧ map command (processes w') =
           [lit "php " ++ quote ++ lit "/ext/dist/quickphp_block.php" ++ quote]).
Proof.
  split.
  - destruct (block_mode Demo.blankSelection 0%nat) as (w' & H1 & H2 & _).
    destruct H2 as (Hm & Hp & _ & Hf); [vm_compute; repeat constructor |].
    exists w'. split; [exact H1 |]. rewrite Hm, Hp, Hf. repeat split.
  - destruct (block_mode Demo.statementSelection 0%nat) as (w' & H1 & _ & H3).
    destruct H3 as (Hn & _ & _ & Hf & _ & Hp).
    + vm_compute. intros H. inversion H as [|? ? Hc _]. discriminate Hc.
    + exists w'. split; [exact H1 |]. rewrite Hf, Hp, Hn. split.
      * rewrite lookup_insert_eq. reflexivity.
      * vm_compute. reflexivity.
Defined.

(** The two warnings of [Demo.warnDone]. *)
Lemma failure_double_prefix_witness :
  ∃ rest,
    map contentText (decorations Demo.warnDone) =
      [lit " // Error: Error: " ++ rest]
    ∧ map color (decorations Demo.warnDone) = [lit "red"].
Proof.
  pose (w := set_processes [] (deliver (Elapse 40) Demo.warnRunning)).
  assert (Demo.warnDone =
          exec_world
            (runPHPCode_done 0 0 (lit "/ext/dist/quickphp.php") true (lit "php")
               1300 None [] Demo.warnings) w) as Hrun
    by (vm_compute; reflexivity).
  assert (annotation_inv w) as Hinv
    by (split; [vm_compute; lia | vm_compute; constructor]).
  destruct (failure_double_prefix w 0%nat 0%nat (lit "/ext/dist/quickphp.php") true
              (lit "php") 1300 None [] Demo.warnings (lit "echo $a;"))
    as (_ & _ & Hd).
  - right. vm_compute. discriminate.
  - vm_compute. reflexivity.
  - exists (lit "PHP Warning:  Undefined variable $a in Current File on line 2"
             ++ newline
             ++ lit "PHP Warning:  Undefined variable $b in /ext/dist/quickphp.php on line 3 (Execution Time: 0.04s)").
    rewrite Hrun, (Hd Hinv). vm_compute. split; reflexivity.
Defined.

End Witnesses.

(** * Further properties of [extension.ts] *)

(** ** The callback of [runPHPCode], case by case *)

Module Callbacks.
Import EffFacts Executor Presenter.

(** The callback logs, clears, presents and cleans up; the clean-up is
    skipped when the presenter throws. *)
Lemma runPHPCode_done_cases (editor currentLine : nat) (filePath : jsstring)
    (isTempFile : bool) (phpPath : jsstring) (startTime : Z)
    (error : option ExecException) (stdout stderr : jsstring) (w : World) :
  runPHPCode_done editor currentLine filePath isTempFile phpPath startTime
    error stdout stderr w =
  let w0 := cleared (logged phpPath filePath error stdout stderr w) in
  let output := presented filePath isTempFile error stdout stderr in
  if negb (truthy (trim output)) then cleanup filePath isTempFile w0
  else
    match lines (document (editors w editor)) !! currentLine with
    | Some targetLineText =>
        cleanup filePath isTempFile
          (shown w0 editor
             (annotation (nextDecorationType w) editor currentLine targetLineText
                ((if failed error stderr then lit "Error: " else [])
                   ++ output ++ lit " (Execution Time: "
                   ++ toFixed2 (now w - startTime) ++ lit "s)")
                (if failed error stderr then lit "red" else successColor w)))
    | None => (Throw IllegalLine, w0)
    end.
Proof.
  rewrite runPHPCode_done_eq. cbv zeta. rewrite displayInlineOutput_eq.
  fold (failed error stderr). fold (failureText error stderr).
  fold (presented filePath isTempFile error stdout stderr).
  change (set_console _ w) with (logged phpPath filePath error stdout stderr w).
  destruct (negb (truthy (trim (presented filePath isTempFile error stdout stderr))));
    [reflexivity |].
  change (editors (cleared (logged phpPath filePath error stdout stderr w)))
    with (editors w).
  destruct (lines (document (editors w editor)) !! currentLine);
    [| now rewrite cleared_idem].
  reflexivity.
Qed.

Lemma cleanup_cases (filePath : jsstring) (isTempFile : bool) (w : World) :
  cleanup filePath isTempFile w =
  if isTempFile then
    match files w !! filePath with
    | Some _ => (Normal tt, set_files (delete filePath (files w)) w)
    | None => (Throw (ENOENT filePath), w)
    end
  else (Normal tt, w).
Proof. destruct isTempFile; reflexivity. Qed.

Lemma truthy_false_iff (s : jsstring) : s ≠ [] ↔ negb (truthy s) = false.
Proof. destruct s; cbn; split; congruence. Qed.

End Callbacks.

(** ** The temporary file of the live mode *)

Module TempFile.
Import EffFacts Executor Presenter Targets Callbacks.

(** X1. The callback of [runPHPCode] never touches the file system after
    a run on the document's own file.  After a run on the temporary file,
    when the presenter completes (blank text, or the target line exists)
    and the file is still there, the callback completes and the file system
    is the old one without that file. *)
Theorem temp_file_removed (editor currentLine : nat) (filePath : jsstring)
    (isTempFile : bool) (phpPath : jsstring) (startTime : Z)
    (error : option ExecException) (stdout stderr : jsstring) (w : World) :
  let r := runPHPCode_done editor currentLine filePath isTempFile phpPath
             startTime error stdout stderr w in
  (isTempFile = false → files (snd r) = files w)
  ∧ (isTempFile = true →
     is_Some (files w !! filePath) →
     trim (presented filePath isTempFile error stdout stderr) = []
     ∨ is_Some (lines (document (editors w editor)) !! currentLine) →
     fst r = Normal tt ∧ files (snd r) = delete filePath (files w)).
Proof.
  intros r. subst r. rewrite runPHPCode_done_cases. cbv zeta. split.
  - intros ->.
    destruct (negb _); [reflexivity |].
    destruct (lines _ !! currentLine); reflexivity.
  - intros -> [c Hc] Hdone.
    destruct (trim (presented filePath true error stdout stderr)) as [|x s] eqn:Ht;
      cbn [truthy negb].
    + rewrite cleanup_cases. cbn. rewrite Hc. split; reflexivity.
    + destruct Hdone as [Hd | [t Hl]]; [discriminate |].
      rewrite Hl, cleanup_cases. cbn. rewrite Hc. split; reflexivity.
Qed.

(** X2. When the text to show is not blank and the target line no longer
    exists, the callback throws out of the presenter: the old annotation
    is cleared, nothing is rendered, and the clean-up is skipped, so the
    file system is unchanged and a temporary file stays on disk. *)
Theorem vanished_line_skips_cleanup (editor currentLine : nat)
    (filePath : jsstring) (isTempFile : bool) (phpPath : jsstring)
    (startTime : Z) (error : option ExecException) (stdout stderr : jsstring)
    (w : World) :
  trim (presented filePath isTempFile error stdout stderr) ≠ [] →
  lines (document (editors w editor)) !! currentLine = None →
  let r := runPHPCode_done editor currentLine filePath isTempFile phpPath
             startTime error stdout stderr w in
  fst r = Throw IllegalLine
  ∧ files (snd r) = files w
  ∧ currentDecorationType (snd r) = None
  ∧ errorDecorationType (snd r) = None
  ∧ decorations (snd r) = filter (untracked w) (decorations w).
Proof.
  intros Hout Hline r. subst r. rewrite runPHPCode_done_cases. cbv zeta.
  apply truthy_false_iff in Hout. rewrite Hout, Hline. cbn. now repeat split.
Qed.

(** X3. When the temporary file is already gone as the callback cleans
    up (an overlapping run has deleted it), the callback throws [ENOENT]
    after the presenter has done its work: a text that is not blank is on
    screen all the same. *)
Theorem missing_temp_file_throws (editor currentLine : nat)
    (filePath phpPath : jsstring) (startTime : Z)
    (error : option ExecException) (stdout stderr targetLineText : jsstring)
    (w : World) :
  files w !! filePath = None →
  trim (presented filePath true error stdout stderr) ≠ [] →
  lines (document (editors w editor)) !! currentLine = Some targetLineText →
  let r := runPHPCode_done editor currentLine filePath true phpPath
             startTime error stdout stderr w in
  fst r = Throw (ENOENT filePath)
  ∧ files (snd r) = files w
  ∧ currentDecorationType (snd r) = Some (nextDecorationType w)
  ∧ ∃ a, last (decorations (snd r)) = Some a
      ∧ deco_editor a = editor
      ∧ deco_line a = currentLine
      ∧ contentText a =
          lit " // " ++ (if failed error stderr then lit "Error: " else [])
            ++ presented filePath true error stdout stderr
            ++ lit " (Execution Time: " ++ toFixed2 (now w - startTime) ++ lit "s)".
Proof.
  intros Hfile Hout Hline r. subst r. rewrite runPHPCode_done_cases. cbv zeta.
  apply truthy_false_iff in Hout. rewrite Hout, Hline, cleanup_cases.
  cbn. rewrite Hfile. cbn [fst snd].
  split; [reflexivity |]. split; [reflexivity |]. split; [reflexivity |].
  eexists. split; [apply last_snoc |]. now repeat split.
Qed.

End TempFile.

(** ** A run from start to end *)

Module RoundTrip.
Import EffFacts Executor Presenter Targets Callbacks.

(** X4. A live run on an unsaved document writes the wrapped text to the
    temporary file and hands the callback to one new process.  When that
    callback runs in a later world with the same files, and its presenter
    completes, the file system is the one before the run without the
    temporary file: exactly the one before the run when no such file
    existed. *)
Theorem live_run_leaves_no_file (w : World) (code : jsstring)
    (editor currentLine : nat) :
  let doc := document (editors w editor) in
  uri_fsPath doc = [] ∨ isUntitled doc = true →
  let w1 := exec_world (runPHPCode code editor currentLine) w in
  ∃ c, last (processes w1) = Some c
    ∧ files w1 !! liveTempFile w = Some (wrapped code)
    ∧ ∀ (w2 : World) (error : option ExecException) (stdout stderr : jsstring),
        files w2 = files w1 →
        trim (presented (liveTempFile w) true error stdout stderr) = []
        ∨ is_Some (lines (document (editors w2 editor)) !! currentLine) →
        let r := runCallback (callback c) error stdout stderr w2 in
        fst r = Normal tt
        ∧ files (snd r) = delete (liveTempFile w) (files w)
        ∧ (files w !! liveTempFile w = None → files (snd r) = files w).
Proof.
  intros doc Hdoc w1. subst w1. unfold exec_world.
  rewrite runPHPCode_eq. cbv zeta. fold doc.
  assert (negb (truthy (uri_fsPath doc)) || isUntitled doc = true) as ->.
  { destruct Hdoc as [-> | ->]; [reflexivity | apply orb_true_r]. }
  eexists. split; [apply last_snoc |]. split; [apply lookup_insert_eq |].
  intros w2 error stdout stderr Hfiles Hdone.
  cbn [callback runCallback].
  rewrite runPHPCode_done_cases. cbv zeta.
  assert (∀ w3, files w3 = files w2 →
            fst (cleanup (liveTempFile w) true w3) = Normal tt
            ∧ files (snd (cleanup (liveTempFile w) true w3))
              = delete (liveTempFile w) (files w)) as Hclean.
  { intros w3 H3. rewrite cleanup_cases, H3, Hfiles. cbn [snd files spawn
      set_nextPid set_processes set_files].
    rewrite lookup_insert_eq. cbn. now rewrite delete_insert_eq. }
  assert (∀ r', fst r' = Normal tt
               ∧ files (snd r') = delete (liveTempFile w) (files w) →
          fst r' = Normal tt
          ∧ files (snd r') = delete (liveTempFile w) (files w)
          ∧ (files w !! liveTempFile w = None → files (snd r') = files w)) as Hfin.
  { intros r' [H1 H2]. repeat split; [exact H1 | exact H2 |].
    intros Hn. now rewrite H2, delete_id. }
  apply Hfin.
  destruct (trim (presented (liveTempFile w) true error stdout stderr)) as [|x s] eqn:Ht;
    cbn [truthy negb].
  - apply Hclean. reflexivity.
  - destruct Hdone as [Hd | [t Hl]]; [discriminate |].
    rewrite Hl. apply Hclean. reflexivity.
Qed.

End RoundTrip.

(** ** The block mode, the handlers and the settings *)

Module Block.
Import EffFacts Executor Presenter Targets Callbacks.

Lemma failed_false (error : option ExecException) (stderr : jsstring) :
  failed error stderr = false ↔ error = None ∧ stderr = [].
Proof.
  unfold failed. rewrite orb_false_iff, bool_decide_eq_false. split.
  - intros [He Hs]. split.
    + destruct error; [destruct He; eauto | reflexivity].
    + now destruct stderr.
  - intros [-> ->]. split; [intros [x Hx]; discriminate | reflexivity].
Qed.

Lemma failed_true (error : option ExecException) (stderr : jsstring) :
  failed error stderr = true ↔ is_Some error ∨ stderr ≠ [].
Proof.
  unfold failed. rewrite orb_true_iff, bool_decide_eq_true.
  destruct stderr; cbn; intuition congruence.
Qed.

Lemma runSelectedBlock_done_cases (editor : nat) (tempFilePath : jsstring)
    (error : option ExecException) (stdout stderr : jsstring) (w : World) :
  runSelectedBlock_done editor tempFilePath error stdout stderr w =
  unlinkSync tempFilePath
    (if failed error stderr then
       set_messages (messages w ++ [ErrorMessage (failureText error stderr)])
         (cleared w)
     else
       set_messages (messages w ++ [InformationMessage (trim stdout)]) w).
Proof.
  unfold runSelectedBlock_done, showErrorMessage, showInformationMessage.
  fold (failed error stderr). fold (failureText error stderr).
  destruct (failed error stderr); eff; rewrite ?clearOutput_eq; reflexivity.
Qed.

Lemma unlinkSync_cases (path : jsstring) (w : World) :
  (∃ c, files w !! path = Some c
        ∧ unlinkSync path w = (Normal tt, set_files (delete path (files w)) w))
  ∨ (files w !! path = None ∧ unlinkSync path w = (Throw (ENOENT path), w)).
Proof.
  unfold unlinkSync. destruct (files w !! path) as [c|]; [left; eauto | right; eauto].
Qed.

(** X5. The callback of [runSelectedBlock] starts no process.  A run
    without error object and with an empty error stream shows its trimmed
    output as an information message and leaves the annotation alone; any
    other run clears the annotation and shows the trimmed error stream, or
    the message of the error object, or [Unknown error], as an error
    message, the path of the temporary file included as it stands.  Then
    the temporary file is deleted; when it is already gone the callback
    throws [ENOENT] after the message is shown. *)
Theorem block_result_reported (editor : nat) (tempFilePath : jsstring)
    (error : option ExecException) (stdout stderr : jsstring) (w : World) :
  let r := runSelectedBlock_done editor tempFilePath error stdout stderr w in
  processes (snd r) = processes w
  ∧ (error = None → stderr = [] →
       messages (snd r) = messages w ++ [InformationMessage (trim stdout)]
       ∧ currentDecorationType (snd r) = currentDecorationType w
       ∧ decorations (snd r) = decorations w)
  ∧ (is_Some error ∨ stderr ≠ [] →
       messages (snd r) = messages w ++ [ErrorMessage (failureText error stderr)]
       ∧ currentDecorationType (snd r) = None
       ∧ decorations (snd r) = filter (untracked w) (decorations w))
  ∧ (is_Some (files w !! tempFilePath) →
       fst r = Normal tt ∧ files (snd r) = delete tempFilePath (files w))
  ∧ (files w !! tempFilePath = None →
       fst r = Throw (ENOENT tempFilePath) ∧ files (snd r) = files w).
Proof.
  intros r. subst r. rewrite runSelectedBlock_done_cases.
  set (wm := if failed error stderr then _ else _).
  assert (files wm = files w ∧ processes wm = processes w) as [Hfw Hpw]
    by (subst wm; destruct (failed error stderr); split; reflexivity).
  destruct (unlinkSync_cases tempFilePath wm)
    as [(c & Hc & Hr) | (Hc & Hr)]; rewrite Hr; cbn [fst snd];
    rewrite Hfw in Hc;
    cbn [processes messages currentDecorationType decorations files set_files].
  all: split; [exact Hpw |].
  all: split;
    [intros -> ->; subst wm; cbn; now repeat split |].
  all: split;
    [intros Hf; apply failed_true in Hf; subst wm; rewrite Hf; cbn;
     now repeat split |].
  - split; [intros _; now rewrite Hfw | intros Hn; congruence].
  - split; [intros [x Hx]; congruence | intros _; now rewrite Hfw].
Qed.

End Block.

(** ** Clearing, the handlers of [activate], [deactivate] *)

Module Lifecycle.
Import EffFacts Executor Presenter Targets Callbacks.

(** X6. [clearOutput] never throws.  Its result does not depend on the
    editor it is given (a decoration type is disposed in every editor), a
    second call changes nothing more, and it leaves timers, processes,
    files and messages alone.  What stays on screen is what neither handle
    referred to; with both handles [undefined] the call changes nothing at
    all. *)
Theorem clearOutput_total (editor other : nat) (w : World) :
  ∃ w', clearOutput editor w = (Normal tt, w')
    ∧ clearOutput other w = (Normal tt, w')
    ∧ clearOutput editor w' = (Normal tt, w')
    ∧ currentDecorationType w' = None
    ∧ errorDecorationType w' = None
    ∧ decorations w' = filter (untracked w) (decorations w)
    ∧ timers w' = timers w
    ∧ processes w' = processes w
    ∧ files w' = files w
    ∧ messages w' = messages w
    ∧ (currentDecorationType w = None → errorDecorationType w = None → w' = w).
Proof.
  exists (cleared w). rewrite !clearOutput_eq, cleared_idem.
  repeat split.
  intros Hc He. destruct w. cbn in *. subst. unfold cleared. setters. cbn.
  f_equal. apply filter_all. intros d. split; discriminate.
Qed.

(** X7. A change of a text document arms the timer only for the active
    editor and only when the changed document is the one that editor
    shows: with no active editor, or with another document, the
    notification changes nothing, so a pending evaluation keeps its due
    time.  The block command without an active editor changes nothing
    either. *)
Theorem inert_notifications (w : World) (d : nat) :
  (activeTextEditor w = None → deliver (DidChangeTextDocument d) w = w)
  ∧ (∀ e, activeTextEditor w = Some e →
          doc_id (document (editors w e)) ≠ d →
          deliver (DidChangeTextDocument d) w = w)
  ∧ (∀ e, activeTextEditor w = Some e →
          doc_id (document (editors w e)) = d →
          deliver (DidChangeTextDocument d) w = exec_world (updateOutput e) w)
  ∧ (activeTextEditor w = None → deliver Command_runBlock w = w).
Proof.
  unfold deliver, exec_world. cbn [handle].
  unfold onDidChangeTextDocument, quickphp_runBlock. eff.
  repeat split.
  - now intros ->.
  - intros e -> Hne. apply Nat.eqb_neq in Hne. rewrite Nat.eqb_sym in Hne.
    now rewrite Hne.
  - intros e -> <-. now rewrite Nat.eqb_refl.
  - now intros ->.
Qed.

(** X8. [deactivate] disposes what the two handles show and completes,
    but it resets neither handle and cancels nothing: the pending timer and
    the processes in flight are as before, so their callbacks still run. *)
Theorem deactivate_keeps_pending (w : World) :
  ∃ w', deactivate w = (Normal tt, w')
    ∧ decorations w' = filter (untracked w) (decorations w)
    ∧ (annotation_inv w → decorations w' = [])
    ∧ currentDecorationType w' = currentDecorationType w
    ∧ errorDecorationType w' = errorDecorationType w
    ∧ timeout w' = timeout w
    ∧ timers w' = timers w
    ∧ processes w' = processes w
    ∧ files w' = files w.
Proof.
  assert (∃ w', deactivate w = (Normal tt, w')
            ∧ decorations w' = filter (untracked w) (decorations w)
            ∧ currentDecorationType w' = currentDecorationType w
            ∧ errorDecorationType w' = errorDecorationType w
            ∧ timeout w' = timeout w
            ∧ timers w' = timers w
            ∧ processes w' = processes w
            ∧ files w' = files w) as (w' & H1 & H2 & H3).
  { unfold deactivate, dispose, untracked. eff.
    destruct (currentDecorationType w) as [c|] eqn:Hc; cbn;
      rewrite ?Hc; destruct (errorDecorationType w) as [e|] eqn:He; cbn;
      eexists; (split; [reflexivity |]); cbn; rewrite ?Hc, ?He;
      (split; [| now repeat split]).
    - rewrite list_filter_filter. apply list_filter_iff.
      intros d. rewrite !Nat.eqb_neq. intuition congruence.
    - apply list_filter_iff. intros d. rewrite !Nat.eqb_neq. intuition congruence.
    - apply list_filter_iff. intros d. rewrite !Nat.eqb_neq. intuition congruence.
    - symmetry. apply filter_all. intros d. split; discriminate. }
  exists w'. split; [exact H1 |]. split; [exact H2 |].
  split; [| exact H3].
  intros Hinv. rewrite H2. apply (cleared_decorations w Hinv).
Qed.

(** X9. On a document that has a file path and is not untitled, the live
    mode never looks at the text it is given: the process it starts, and
    the whole world it leaves, are the same for any two texts, and no file
    is written.  The interpreter sees what is on disk, not the unsaved
    edits of the buffer. *)
Theorem saved_file_ignores_buffer (w : World) (editor currentLine : nat)
    (code code' : jsstring) :
  uri_fsPath (document (editors w editor)) ≠ [] →
  isUntitled (document (editors w editor)) = false →
  runPHPCode code editor currentLine w = runPHPCode code' editor currentLine w
  ∧ files (exec_world (runPHPCode code editor currentLine) w) = files w.
Proof.
  intros Hp Hu. unfold exec_world. rewrite !runPHPCode_eq. cbv zeta.
  rewrite Hu, orb_false_r.
  destruct (uri_fsPath (document (editors w editor))); [congruence |].
  split; reflexivity.
Qed.


End Lifecycle.

(** ** Invariants of the event loop *)

Module Reachable.
Import EffFacts Executor Presenter SingleAnnotation Scheduler Targets Callbacks Block.

(** What one event does to the timers and the clock. *)
Lemma deliver_timers (ev : Event) (w : World) :
  (timers (deliver ev w) = timers w
   ∧ timeout (deliver ev w) = timeout w
   ∧ now w <= now (deliver ev w))
  ∨ (∃ e, deliver ev w = scheduled e w)
  ∨ (∃ id, timers (deliver ev w)
             = filter (fun t => (timer_id t =? id)%nat = false) (timers w)
           ∧ timeout (deliver ev w) = timeout w
           ∧ now (deliver ev w) = now w).
Proof.
  assert (∀ w', timer_eq w' w →
            timers w' = timers w ∧ timeout w' = timeout w ∧ now w <= now w')
    as Hsame.
  { intros w' (H1 & H2 & _ & _ & H5). rewrite H1, H2, H5.
    split; [reflexivity |]. split; [reflexivity | lia]. }
  pose proof (notification_cases ev w) as Hn.
  destruct ev as [d|e| |id|p err out serr|ms|e st|e|k v].
  - destruct (reaches _ w) as [e|]; rewrite Hn; [right; left; eauto |].
    left. apply Hsame, timer_eq_refl.
  - destruct (reaches _ w) as [e'|]; rewrite Hn; [right; left; eauto |].
    left. apply Hsame, timer_eq_refl.
  - left. apply Hsame. unfold deliver, exec_world. cbn. unfold quickphp_runBlock. eff.
    destruct (activeTextEditor w); [| apply timer_eq_refl].
    rewrite runSelectedBlock_eq. cbv zeta. destruct (negb _); now repeat split.
  - unfold deliver, exec_world. cbn. unfold timerElapsed.
    destruct (List.find _ (timers w)) as [t|];
      [| left; apply Hsame, timer_eq_refl].
    destruct (due t <=? now w); [| left; apply Hsame, timer_eq_refl].
    right. right. exists id.
    match goal with
    | |- context [updateOutput_fire ?e ?w0] =>
        destruct (updateOutput_fire_timers e w0) as (H1 & H2 & _ & _ & H5)
    end.
    rewrite H1, H2, H5. split; [reflexivity |]. split; reflexivity.
  - left. apply Hsame. unfold deliver, exec_world. cbn. unfold processExited.
    destruct (List.find _ (processes w)) as [c|]; [| apply timer_eq_refl].
    destruct (callback c) as [ed cl fp tmp php st | ed fp]; cbn [runCallback].
    + eapply timer_eq_trans; [apply runPHPCode_done_timers |]. now repeat split.
    + eapply timer_eq_trans; [apply runSelectedBlock_done_timers |].
      now repeat split.
  - left. split; [reflexivity |]. split; [reflexivity |]. cbn. lia.
  - left. apply Hsame. now repeat split.
  - left. apply Hsame. now repeat split.
  - left. apply Hsame. now repeat split.
Qed.

Lemma due_soon_deliver (ev : Event) (w : World) :
  timer_inv w → due_soon w → due_soon (deliver ev w).
Proof.
  intros Hinv Hdue. unfold due_soon in *.
  destruct (deliver_timers ev w) as [(H1 & _ & H3) | [[e He] | (id & H1 & _ & H3)]].
  - rewrite H1. eapply Forall_impl; [exact Hdue |]. cbn. intros t Ht. lia.
  - rewrite He, (scheduled_timers e w Hinv). cbn.
    constructor; [cbn; lia | constructor].
  - rewrite H1, H3. rewrite Forall_forall in Hdue. apply Forall_forall.
    intros t Ht. apply list_elem_of_filter in Ht. apply Hdue, Ht.
Qed.

(** X11. In every world that the extension reaches from its activation
    at most one timer is pending; it is the one that [timeout] holds, and
    it is due no later than 300 ms from now. *)
Theorem pending_timer_unique (dir : jsstring) (t0 : Z) (eds : nat → TextEditor)
    (act : option nat) (cfg : gmap string Setting)
    (fs : gmap jsstring jsstring) (evs : list Event) :
  let w := run evs (initial dir t0 eds act cfg fs) in
  (length (timers w) <= 1)%nat
  ∧ ∀ t, t ∈ timers w → timeout w = Some (timer_id t) ∧ due t <= now w + 300.
Proof.
  intros w.
  assert (timer_inv w ∧ due_soon w) as [Hinv Hdue].
  { subst w. generalize (initial dir t0 eds act cfg fs),
      (or_introl eq_refl : timer_inv (initial dir t0 eds act cfg fs)),
      (Forall_nil_2 _ : due_soon (initial dir t0 eds act cfg fs)).
    induction evs as [|ev evs IH]; intros w Hinv Hdue; [now split |].
    apply IH; [now apply timer_inv_deliver | now apply due_soon_deliver]. }
  unfold due_soon in Hdue. rewrite Forall_forall in Hdue.
  destruct Hinv as [Hnil | (t & Ht & Hid)].
  - rewrite Hnil. split; [cbn; lia |]. intros t Hin. inversion Hin.
  - split; [rewrite Ht; cbn; lia |].
    intros t' Hin. split; [| now apply Hdue].
    rewrite Ht in Hin. apply list_elem_of_singleton in Hin. now subst.
Qed.

End Reachable.

(** ** Completions in sequence *)

Module Race.
Import EffFacts Executor Presenter SingleAnnotation Targets Callbacks Block.

(** The callback of [runPHPCode] changes neither the editors, the clock,
    the settings nor the processes. *)
Lemma runPHPCode_done_host (editor currentLine : nat) (filePath : jsstring)
    (isTempFile : bool) (phpPath : jsstring) (startTime : Z)
    (error : option ExecException) (stdout stderr : jsstring) (w : World) :
  let w' := snd (runPHPCode_done editor currentLine filePath isTempFile phpPath
                   startTime error stdout stderr w) in
  editors w' = editors w ∧ now w' = now w ∧ settings w' = settings w
  ∧ processes w' = processes w ∧ dirname w' = dirname w.
Proof.
  rewrite runPHPCode_done_cases. cbv zeta.
  assert (∀ w1, editors w1 = editors w ∧ now w1 = now w ∧ settings w1 = settings w
                ∧ processes w1 = processes w ∧ dirname w1 = dirname w →
          let w' := snd (cleanup filePath isTempFile w1) in
          editors w' = editors w ∧ now w' = now w ∧ settings w' = settings w
          ∧ processes w' = processes w ∧ dirname w' = dirname w) as Hc.
  { intros w1 H. rewrite cleanup_cases.
    destruct isTempFile; [destruct (files w1 !! filePath) |]; exact H. }
  destruct (negb _); [apply Hc; now repeat split |].
  destruct (lines _ !! currentLine); [apply Hc |]; now repeat split.
Qed.

(** X12. Annotations are applied in the order in which the processes
    exit, whatever the order in which they were started: when two
    callbacks of [runPHPCode] run one after the other in a reachable world
    and the second reports a success with a text that is not blank on a
    line that exists, the screen shows the text of the second and nothing
    of the first. *)
Theorem last_completion_wins (dir : jsstring) (t0 : Z) (eds : nat → TextEditor)
    (act : option nat) (cfg : gmap string Setting)
    (fs : gmap jsstring jsstring) (evs : list Event)
    (e1 l1 : nat) (f1 : jsstring) (tmp1 : bool) (php1 : jsstring) (s1 : Z)
    (err1 : option ExecException) (out1 serr1 : jsstring)
    (e2 l2 : nat) (f2 : jsstring) (tmp2 : bool) (php2 : jsstring) (s2 : Z)
    (out2 targetLineText : jsstring) :
  let w := run evs (initial dir t0 eds act cfg fs) in
  let w1 := snd (runPHPCode_done e1 l1 f1 tmp1 php1 s1 err1 out1 serr1 w) in
  let w2 := snd (runPHPCode_done e2 l2 f2 tmp2 php2 s2 None out2 [] w1) in
  trim out2 ≠ [] →
  lines (document (editors w e2)) !! l2 = Some targetLineText →
  ∃ a, decorations w2 = [a]
    ∧ deco_editor a = e2
    ∧ deco_line a = l2
    ∧ deco_character a = length targetLineText
    ∧ contentText a =
        lit " // " ++ trim out2 ++ lit " (Execution Time: "
          ++ toFixed2 (now w - s2) ++ lit "s)".
Proof.
  intros w w1 w2 Hout Hline.
  destruct (inv_run evs _ (inv_initial dir t0 eds act cfg fs)) as [Ha Hf].
  fold w in Ha, Hf.
  assert (annotation_inv w1) as Ha1.
  { apply (inv_step w w1); [apply runPHPCode_done_step | now split]. }
  destruct (runPHPCode_done_host e1 l1 f1 tmp1 php1 s1 err1 out1 serr1 w)
    as (He & Hn & _). fold w1 in He, Hn.
  subst w2. rewrite runPHPCode_done_cases. cbv zeta.
  change (presented f2 tmp2 None out2 []) with (trim out2).
  change (failed None []) with false. cbv iota.
  rewrite JSFacts.trim_idem. apply truthy_false_iff in Hout.
  rewrite Hout, He, Hline, Hn, shown_cleared.
  match goal with
  | |- context [shown _ e2 ?x] => exists x
  end.
  split; [| now repeat split].
  rewrite cleanup_cases.
  assert (decorations (cleared (logged php2 f2 None out2 [] w1)) = []) as Hnil
    by (apply cleared_decorations; exact Ha1).
  destruct tmp2; [destruct (files _ !! f2) |]; cbn [snd];
    unfold shown; cbn [decorations set_decorations set_files];
    rewrite Hnil; reflexivity.
Qed.

End Race.

(** ** The heuristic on the whole line *)

Module WholeLine.

Lemma trimEnd_suffix (s : jsstring) : ∃ r, s = trimEnd s ++ r ∧ blank r.
Proof.
  induction s as [|c s (r & Hs & Hr)]; [exists []; now split |]. simpl.
  destruct (trimEnd s) as [|d t] eqn:Ht.
  - destruct (isWhiteSpace c) eqn:Hc.
    + exists (c :: r). simpl in *. split; [congruence | now constructor].
    + exists r. simpl in *. split; [congruence | assumption].
  - exists r. simpl in *. split; [congruence | assumption].
Qed.

(** The trimmed text sits in the line between two runs of white space. *)
Lemma trim_inside (s : jsstring) :
  ∃ l r, s = l ++ trim s ++ r ∧ blank l ∧ blank r.
Proof.
  destruct (JSFacts.trimStart_decomp s) as (l & Hl & Fl).
  destruct (trimEnd_suffix (trimStart s)) as (r & Hr & Fr).
  exists l, r. unfold trim. rewrite <- Hr. auto.
Qed.

Lemma strip_prefix (l t a b p : jsstring) (c : N) :
  blank l → isWhiteSpace c = false →
  l ++ t = a ++ (c :: p) ++ b →
  ∃ a', t = a' ++ (c :: p) ++ b.
Proof.
  intros Hl Hc. revert a. induction Hl as [|x l Hx _ IH]; intros a Heq.
  - now exists a.
  - destruct a as [|y a]; simpl in Heq; injection Heq as -> Heq.
    + congruence.
    + now apply (IH a).
Qed.

Lemma strip_suffix (r t a b p : jsstring) (z : N) :
  blank r → isWhiteSpace z = false →
  t ++ r = a ++ (p ++ [z]) ++ b →
  ∃ b', t = a ++ (p ++ [z]) ++ b'.
Proof.
  intros Hr Hz. revert b. induction r as [|x r IH] using rev_ind; intros b Heq.
  - exists b. now rewrite app_nil_r in Heq.
  - apply Forall_app in Hr. destruct Hr as [Hr Hx].
    inversion Hx as [|? ? Hwx _]; subst.
    destruct b as [|y b _] using rev_ind.
    + rewrite app_nil_r, !app_assoc in Heq. apply app_inj_tail in Heq.
      destruct Heq as [_ ->]. congruence.
    + rewrite !app_assoc in Heq. apply app_inj_tail in Heq.
      destruct Heq as [Heq _]. apply (IH Hr b). now rewrite Heq, !app_assoc.
Qed.

(** A text that neither starts nor ends with white space occurs in a line
    exactly when it occurs in the trimmed line. *)
Lemma includes_trim (s p : jsstring) (c z : N) (q q' : jsstring) :
  p = c :: q → p = q' ++ [z] →
  isWhiteSpace c = false → isWhiteSpace z = false →
  includes (trim s) p = includes s p.
Proof.
  intros Hp Hp' Hc Hz.
  destruct (trim_inside s) as (l & r & Hs & Hl & Hr).
  apply eq_true_iff_eq. rewrite !JSFacts.includes_spec. split.
  - intros (a & b & Hab). exists (l ++ a), (b ++ r).
    rewrite Hs at 1. rewrite Hab, !app_assoc. reflexivity.
  - intros (a & b & Hab).
    assert (l ++ trim s ++ r = a ++ (c :: q) ++ b) as H1 by congruence.
    apply (strip_prefix l _ a b q c Hl Hc) in H1. destruct H1 as (a' & H1).
    rewrite <- Hp, Hp' in H1.
    apply (strip_suffix r _ a' b q' z Hr Hz) in H1. destruct H1 as (b' & H1).
    exists a', b'. now rewrite H1, Hp'.
Qed.

(** X13. Trimming matters for the [echo] test only: the line passes the
    heuristic exactly when its trimmed text is [echo ] followed by more
    text, or the line as it stands contains [print], or contains [$].  A
    line that holds nothing but [echo] and white space does not pass. *)
Theorem heuristic_on_whole_line (text : jsstring) :
  looksEvaluable (trim text) = true ↔
    (∃ t, t ≠ [] ∧ trim text = lit "echo " ++ t)
    ∨ includes text (lit "print") = true
    ∨ includes text (lit "$") = true.
Proof.
  unfold looksEvaluable.
  rewrite (includes_trim text (lit "print") 112 116 (lit "rint") (lit "prin"))
    by reflexivity.
  rewrite (includes_trim text (lit "$") 36 36 [] []) by reflexivity.
  rewrite !orb_true_iff, JSFacts.startsWith_spec.
  assert ((∃ t, trim text = lit "echo " ++ t)
          ↔ (∃ t, t ≠ [] ∧ trim text = lit "echo " ++ t)) as ->; [| tauto].
  split; [| intros (t & _ & H); eauto].
  intros (t & Ht). exists t. split; [| exact Ht].
  intros ->. pose proof (JSFacts.trim_idem text) as Hi.
  rewrite Ht in Hi. discriminate Hi.
Qed.

End WholeLine.

(** ** Processes and files over the event loop *)

Module Footprint.
Import EffFacts Executor Presenter Scheduler Targets Callbacks Block Race.

Lemma runPHPCode_done_files (editor currentLine : nat) (filePath : jsstring)
    (isTempFile : bool) (phpPath : jsstring) (startTime : Z)
    (error : option ExecException) (stdout stderr : jsstring) (w : World) :
  let w' := snd (runPHPCode_done editor currentLine filePath isTempFile phpPath
                   startTime error stdout stderr w) in
  files w' = files w
  ∨ (isTempFile = true ∧ files w' = delete filePath (files w)).
Proof.
  rewrite runPHPCode_done_cases. cbv zeta.
  assert (∀ w1, files w1 = files w →
          let w' := snd (cleanup filePath isTempFile w1) in
          files w' = files w
          ∨ (isTempFile = true ∧ files w' = delete filePath (files w))) as Hc.
  { intros w1 H. rewrite cleanup_cases.
    destruct isTempFile; [destruct (files w1 !! filePath) |]; cbn;
      rewrite ?H; auto. }
  destruct (negb _); [now apply Hc |].
  destruct (lines _ !! currentLine); [now apply Hc | now left].
Qed.

Lemma runSelectedBlock_done_host (editor : nat) (tempFilePath : jsstring)
    (error : option ExecException) (stdout stderr : jsstring) (w : World) :
  let w' := snd (runSelectedBlock_done editor tempFilePath error stdout stderr w) in
  processes w' = processes w ∧ dirname w' = dirname w
  ∧ (files w' = files w ∨ files w' = delete tempFilePath (files w)).
Proof.
  rewrite runSelectedBlock_done_cases.
  set (wm := if failed error stderr then _ else _).
  assert (files wm = files w ∧ processes wm = processes w ∧ dirname wm = dirname w)
    as (Hf & Hp & Hd)
    by (subst wm; destruct (failed error stderr); now repeat split).
  destruct (unlinkSync_cases tempFilePath wm) as [(c & _ & ->) | (_ & ->)];
    cbn; rewrite ?Hf; auto.
Qed.

(** What the timer callback does to processes and files. *)
Lemma updateOutput_fire_host (editor : nat) (w : World) :
  let w' := snd (updateOutput_fire editor w) in
  dirname w' = dirname w
  ∧ ((processes w' = processes w ∧ files w' = files w)
     ∨ (∃ c, processes w' = processes w ++ [c]
             ∧ deletes (callback c) = None ∧ files w' = files w)
     ∨ (∃ c code, processes w' = processes w ++ [c]
             ∧ deletes (callback c) = Some (liveTempFile w)
             ∧ files w' = <[liveTempFile w := code]> (files w))).
Proof.
  unfold updateOutput_fire, lineAt. eff.
  destruct (lines (document (editors w editor))
              !! line (active (selection (editors w editor)))) as [text|];
    [| now split; [| left]].
  destruct (looksEvaluable (trim text)).
  - rewrite runPHPCode_eq. cbv zeta. destruct (negb _ || _).
    + split; [reflexivity |]. right. right. do 2 eexists. now repeat split.
    + split; [reflexivity |]. right. left. eexists. now repeat split.
  - rewrite clearOutput_eq. now split; [| left].
Qed.

Lemma filter_find_none (p : nat) (l : list ChildProcess) :
  List.find (fun c => (pid c =? p)%nat) l = None →
  filter (fun c => (pid c =? p)%nat = false) l = l.
Proof.
  induction l as [|c l IH]; [reflexivity |]. simpl.
  destruct (pid c =? p)%nat eqn:Hc; [discriminate |].
  intros H. rewrite filter_cons_True by exact Hc. now rewrite IH.
Qed.

(** X14. No event takes a process out of flight except its own exit: an
    exit removes the processes of that id and starts none; every other
    event keeps all processes and starts at most one. *)
Theorem processes_never_cancelled (ev : Event) (w : World) :
  match ev with
  | ProcessExited p _ _ _ =>
      processes (deliver ev w)
      = filter (fun c => (pid c =? p)%nat = false) (processes w)
  | _ =>
      ∃ new, processes (deliver ev w) = processes w ++ new
             ∧ (length new <= 1)%nat
  end.
Proof.
  pose proof (notification_cases ev w) as Hn.
  assert (∃ new, processes w = processes w ++ new ∧ (length new <= 1)%nat) as Hsame
    by (exists []; rewrite app_nil_r; split; [reflexivity | cbn; lia]).
  destruct ev as [d|e| |id|p err out serr|ms|e st|e|k v]; try exact Hsame.
  - destruct (reaches _ w); rewrite Hn; exact Hsame.
  - destruct (reaches _ w); rewrite Hn; exact Hsame.
  - unfold deliver, exec_world. cbn. unfold quickphp_runBlock. eff.
    destruct (activeTextEditor w); [| exact Hsame].
    rewrite runSelectedBlock_eq. cbv zeta. destruct (negb _); [exact Hsame |].
    eexists. split; [reflexivity | cbn; lia].
  - unfold deliver, exec_world. cbn. unfold timerElapsed.
    destruct (List.find _ (timers w)) as [t|]; [| exact Hsame].
    destruct (due t <=? now w); [| exact Hsame].
    match goal with
    | |- context [updateOutput_fire ?e ?w0] =>
        destruct (updateOutput_fire_host e w0)
          as (_ & [(Hp & _) | [(c & Hp & _) | (c & code & Hp & _)]])
    end; rewrite Hp; cbn [processes set_evaluations set_timers];
      [exact Hsame | |]; eexists; (split; [reflexivity | cbn; lia]).
  - unfold deliver, exec_world. cbn. unfold processExited.
    destruct (List.find _ (processes w)) as [c|] eqn:Hfind;
      [| now rewrite filter_find_none].
    destruct (callback c) as [ed cl fp tmp php st | ed fp]; cbn [runCallback].
    + match goal with
      | |- context [runPHPCode_done ?a ?b ?c ?d ?e ?f ?g ?h ?i ?w0] =>
          destruct (runPHPCode_done_host a b c d e f g h i w0)
            as (_ & _ & _ & Hp & _)
      end.
      now rewrite Hp.
    + match goal with
      | |- context [runSelectedBlock_done ?a ?b ?c ?d ?e ?w0] =>
          destruct (runSelectedBlock_done_host a b c d e w0) as (Hp & _)
      end.
      now rewrite Hp.
Qed.

Lemma proc_inv_change (w w' : World) (new : list ChildProcess) :
  dirname w' = dirname w →
  (processes w' = processes w ++ new
   ∨ ∃ p, processes w'
          = filter (fun c => (pid c =? p)%nat = false) (processes w) ∧ new = []) →
  Forall (fun c => ∀ path, deletes (callback c) = Some path →
                   path = liveTempFile w ∨ path = blockTempFile w) new →
  proc_inv w → proc_inv w'.
Proof.
  intros Hd Hp Hnew Hinv. unfold proc_inv, liveTempFile, blockTempFile in *.
  rewrite Hd. destruct Hp as [-> | (p & -> & _)].
  - apply Forall_app. now split.
  - rewrite Forall_forall in Hinv. apply Forall_forall.
    intros c Hc. apply list_elem_of_filter in Hc. apply Hinv, Hc.
Qed.

(** One event keeps the directory, keeps [proc_inv], and changes no file
    other than the two temporary ones. *)
Lemma deliver_footprint (ev : Event) (w : World) :
  proc_inv w →
  dirname (deliver ev w) = dirname w
  ∧ proc_inv (deliver ev w)
  ∧ ∀ path, path ≠ liveTempFile w → path ≠ blockTempFile w →
            files (deliver ev w) !! path = files w !! path.
Proof.
  intros Hinv.
  assert (∀ w', dirname w' = dirname w → processes w' = processes w →
                files w' = files w →
          dirname w' = dirname w ∧ proc_inv w'
          ∧ ∀ path, path ≠ liveTempFile w → path ≠ blockTempFile w →
                    files w' !! path = files w !! path) as Hsame.
  { intros w' Hd Hp Hf. split; [exact Hd |]. split.
    - apply (proc_inv_change w w' []); auto. left. now rewrite app_nil_r.
    - intros path _ _. now rewrite Hf. }
  pose proof (notification_cases ev w) as Hn.
  destruct ev as [d|e| |id|p err out serr|ms|e st|e|k v];
    try (now apply Hsame).
  - destruct (reaches _ w); rewrite Hn; now apply Hsame.
  - destruct (reaches _ w); rewrite Hn; now apply Hsame.
  - unfold deliver, exec_world. cbn. unfold quickphp_runBlock. eff.
    destruct (activeTextEditor w) as [e|]; [| now apply Hsame].
    rewrite runSelectedBlock_eq. cbv zeta. destruct (negb _); [now apply Hsame |].
    split; [reflexivity |]. split.
    + eapply (proc_inv_change w); [reflexivity | left; reflexivity | | exact Hinv].
      constructor; [| constructor]. cbn. intros path [= <-]. now right.
    + intros path _ Hb. cbn. now rewrite lookup_insert_ne.
  - unfold deliver, exec_world. cbn. unfold timerElapsed.
    destruct (List.find _ (timers w)) as [t|]; [| now apply Hsame].
    destruct (due t <=? now w); [| now apply Hsame].
    match goal with
    | |- context [updateOutput_fire ?e ?w0] =>
        destruct (updateOutput_fire_host e w0)
          as (Hd & [(Hp & Hf) | [(c & Hp & Hc & Hf) | (c & code & Hp & Hc & Hf)]])
    end; cbv zeta in *; cbn [processes files dirname set_evaluations set_timers] in *.
    + now apply Hsame.
    + split; [exact Hd |]. split.
      * eapply (proc_inv_change w); [exact Hd | left; exact Hp | | exact Hinv].
        constructor; [| constructor]. intros path Hpath. congruence.
      * intros path _ _. now rewrite Hf.
    + split; [exact Hd |]. split.
      * eapply (proc_inv_change w); [exact Hd | left; exact Hp | | exact Hinv].
        constructor; [| constructor]. intros path Hpath.
        rewrite Hc in Hpath. injection Hpath as <-. now left.
      * intros path Hl _. rewrite Hf.
        change (liveTempFile _) with (liveTempFile w). now rewrite lookup_insert_ne.
  - unfold deliver, exec_world. cbn. unfold processExited.
    destruct (List.find _ (processes w)) as [c|] eqn:Hfind; [| now apply Hsame].
    apply find_some in Hfind. destruct Hfind as [Hin _].
    apply list_elem_of_In in Hin.
    assert (∀ path, deletes (callback c) = Some path →
                    path = liveTempFile w ∨ path = blockTempFile w) as Hc
      by (unfold proc_inv in Hinv; rewrite Forall_forall in Hinv; now apply Hinv).
    destruct (callback c) as [ed cl fp tmp php st | ed fp]; cbn [runCallback].
    + match goal with
      | |- context [runPHPCode_done ?a ?b ?c ?d ?e ?f ?g ?h ?i ?w0] =>
          destruct (runPHPCode_done_host a b c d e f g h i w0)
            as (_ & _ & _ & Hp & Hd);
          destruct (runPHPCode_done_files a b c d e f g h i w0) as [Hf | (Ht & Hf)]
      end; cbv zeta in *; cbn [processes files dirname set_processes] in *.
      * split; [exact Hd |]. split.
        -- eapply (proc_inv_change w _ []);
             [exact Hd | right; eauto | constructor | exact Hinv].
        -- intros path _ _. now rewrite Hf.
      * split; [exact Hd |]. split.
        -- eapply (proc_inv_change w _ []);
             [exact Hd | right; eauto | constructor | exact Hinv].
        -- intros path Hl Hb. rewrite Hf. subst tmp.
           destruct (Hc fp eq_refl) as [-> | ->]; now rewrite lookup_delete_ne.
    + match goal with
      | |- context [runSelectedBlock_done ?a ?b ?c ?d ?e ?w0] =>
          destruct (runSelectedBlock_done_host a b c d e w0) as (Hp & Hd & Hf)
      end; cbv zeta in *; cbn [processes files dirname set_processes] in *.
      split; [exact Hd |]. split.
      * eapply (proc_inv_change w _ []);
          [exact Hd | right; eauto | constructor | exact Hinv].
      * intros path Hl Hb. destruct Hf as [-> | ->]; [reflexivity |].
        destruct (Hc fp eq_refl) as [-> | ->]; now rewrite lookup_delete_ne.
Qed.

(** X15. Whatever events arrive after the activation, the extension
    changes no file other than [quickphp.php] and [quickphp_block.php] in
    its own directory: every other path holds what it held at the start. *)
Theorem only_temp_files_touched (dir : jsstring) (t0 : Z) (eds : nat → TextEditor)
    (act : option nat) (cfg : gmap string Setting)
    (fs : gmap jsstring jsstring) (evs : list Event) (path : jsstring) :
  path ≠ dir ++ lit "/quickphp.php" →
  path ≠ dir ++ lit "/quickphp_block.php" →
  files (run evs (initial dir t0 eds act cfg fs)) !! path = fs !! path.
Proof.
  intros Hl Hb.
  assert (∀ w, dirname w = dir → proc_inv w →
               files w !! path = fs !! path →
               files (run evs w) !! path = fs !! path) as H.
  { induction evs as [|ev evs IH]; intros w Hd Hinv Hf; [exact Hf |].
    destruct (deliver_footprint ev w Hinv) as (Hd' & Hinv' & Hf').
    change (run (ev :: evs) w) with (run evs (deliver ev w)).
    apply IH; [congruence | exact Hinv' |].
    rewrite Hf'; [exact Hf | |]; unfold liveTempFile, blockTempFile, path_join;
      now rewrite Hd. }
  apply H; [reflexivity | constructor | reflexivity].
Qed.

End Footprint.

(** ** The further properties at work on the sample sessions *)

Module Samples.
Import TempFile RoundTrip Block Lifecycle Reachable Race WholeLine Footprint.

(** The greeting of [Demo.helloRunning]: the callback deletes the temporary
    file. *)
Lemma temp_file_removed_witness :
  let r := runPHPCode_done 0 0 (lit "/ext/dist/quickphp.php") true (lit "php") 1300
             None (lit "Hello, QuickPHP!") [] Demo.helloRunning in
  is_Some (files Demo.helloRunning !! lit "/ext/dist/quickphp.php")
  ∧ fst r = Normal tt
  ∧ files (snd r) !! lit "/ext/dist/quickphp.php" = None.
Proof.
  intros r.
  assert (is_Some (files Demo.helloRunning !! lit "/ext/dist/quickphp.php")) as Hf
    by (vm_compute; eauto).
  split; [exact Hf |].
  destruct (proj2 (temp_file_removed 0 0 (lit "/ext/dist/quickphp.php") true
                     (lit "php") 1300 None (lit "Hello, QuickPHP!") []
                     Demo.helloRunning) eq_refl Hf) as [H1 H2].
  - right. vm_compute. eauto.
  - split; [exact H1 |]. subst r. rewrite H2. apply lookup_delete_eq.
Defined.

(** [Scenes.shrunk]: the target line is gone when the interpreter exits; the
    temporary file stays. *)
Lemma vanished_line_skips_cleanup_witness :
  let r := runPHPCode_done 0 1 (lit "/ext/dist/quickphp.php") true (lit "php") 1300
             None (lit "2") [] Scenes.shrunk in
  fst r = Throw IllegalLine
  ∧ is_Some (files (snd r) !! lit "/ext/dist/quickphp.php")
  ∧ decorations (snd r) = [].
Proof.
  intros r.
  destruct (vanished_line_skips_cleanup 0 1 (lit "/ext/dist/quickphp.php") true
              (lit "php") 1300 None (lit "2") [] Scenes.shrunk)
    as (H1 & H2 & _ & _ & H5).
  - vm_compute. discriminate.
  - vm_compute. reflexivity.
  - split; [exact H1 |]. subst r. rewrite H2, H5. split.
    + vm_compute. eauto.
    + vm_compute. reflexivity.
Defined.

(** [Demo.helloDone]: the file is gone; a second callback for the same file
    still shows its text and then throws. *)
Lemma missing_temp_file_throws_witness :
  let r := runPHPCode_done 0 0 (lit "/ext/dist/quickphp.php") true (lit "php") 1300
             None (lit "again") [] Demo.helloDone in
  fst r = Throw (ENOENT (lit "/ext/dist/quickphp.php"))
  ∧ ∃ a, last (decorations (snd r)) = Some a
      ∧ contentText a = lit " // again (Execution Time: 0.04s)".
Proof.
  intros r.
  destruct (missing_temp_file_throws 0 0 (lit "/ext/dist/quickphp.php") (lit "php")
              1300 None (lit "again") [] Demo.helloLine Demo.helloDone)
    as (H1 & _ & _ & a & Ha & _ & _ & Hc).
  - vm_compute. reflexivity.
  - vm_compute. discriminate.
  - vm_compute. reflexivity.
  - split; [exact H1 |]. exists a. split; [exact Ha |].
    rewrite Hc. vm_compute. reflexivity.
Defined.

(** The whole run of the greeting leaves the file system as it was. *)
Lemma live_run_leaves_no_file_witness :
  ∃ c, last (processes (exec_world (runPHPCode (lit "echo 1;") 0 0) Demo.helloIdle))
         = Some c
    ∧ files (snd (runCallback (callback c) None (lit "1") []
                    (exec_world (runPHPCode (lit "echo 1;") 0 0) Demo.helloIdle)))
      = files Demo.helloIdle.
Proof.
  destruct (live_run_leaves_no_file Demo.helloIdle (lit "echo 1;") 0 0
              (or_intror eq_refl))
    as (c & Hc & _ & H).
  exists c. split; [exact Hc |].
  destruct (H (exec_world (runPHPCode (lit "echo 1;") 0 0) Demo.helloIdle)
              None (lit "1") [] eq_refl) as (_ & _ & H3).
  - right. vm_compute. eauto.
  - apply H3. reflexivity.
Defined.

(** [Scenes.blockRunning]: the block prints 1. *)
Lemma block_result_reported_witness :
  let r := runSelectedBlock_done 0 (lit "/ext/dist/quickphp_block.php") None
             (lit "1") [] Scenes.blockRunning in
  fst r = Normal tt
  ∧ messages (snd r) = [InformationMessage (lit "1")]
  ∧ files (snd r) !! lit "/ext/dist/quickphp_block.php" = None.
Proof.
  intros r.
  destruct (block_result_reported 0 (lit "/ext/dist/quickphp_block.php") None
              (lit "1") [] Scenes.blockRunning)
    as (_ & H2 & _ & H4 & _).
  destruct (H2 eq_refl eq_refl) as (Hm & _).
  destruct H4 as [Hn Hf]; [vm_compute; eauto |].
  split; [exact Hn |]. split.
  - subst r. rewrite Hm. reflexivity.
  - subst r. rewrite Hf. apply lookup_delete_eq.
Defined.

(** Nothing is shown in [Demo.helloIdle]: clearing changes nothing. *)
Lemma clearOutput_total_witness :
  clearOutput 0 Demo.helloIdle = (Normal tt, Demo.helloIdle).
Proof.
  destruct (clearOutput_total 0 0 Demo.helloIdle) as (w' & H1 & _ & _ & _ & _ & _
    & _ & _ & _ & _ & H).
  rewrite H1, (H eq_refl eq_refl). reflexivity.
Defined.

(** [Demo.helloIdle] shows document 0; a change of document 5 is ignored. *)
Lemma inert_notifications_witness :
  deliver (DidChangeTextDocument 5) Demo.helloIdle = Demo.helloIdle
  ∧ timers (deliver (DidChangeTextDocument 0) Demo.helloIdle)
    = [{| timer_id := 0; due := 1300; timer_editor := 0 |}].
Proof.
  destruct (inert_notifications Demo.helloIdle 5) as (_ & H2 & _).
  destruct (inert_notifications Demo.helloIdle 0) as (_ & _ & H3 & _).
  split.
  - apply (H2 0%nat eq_refl). vm_compute. discriminate.
  - rewrite (H3 0%nat eq_refl eq_refl). vm_compute. reflexivity.
Defined.

(** [Demo.helloDone] shows the greeting; [deactivate] removes it and keeps
    the handle. *)
Lemma deactivate_keeps_pending_witness :
  ∃ w', deactivate Demo.helloDone = (Normal tt, w')
    ∧ decorations w' = []
    ∧ currentDecorationType w' = Some 0%nat.
Proof.
  destruct (deactivate_keeps_pending Demo.helloDone)
    as (w' & H1 & _ & H3 & H4 & _).
  exists w'. split; [exact H1 |]. split.
  - apply H3. split; [vm_compute; lia | vm_compute; repeat constructor].
  - rewrite H4. vm_compute. reflexivity.
Defined.

(** [Demo.savedIdle]: two texts, one run. *)
Lemma saved_file_ignores_buffer_witness :
  runPHPCode (lit "<?php echo 1;") 0 1 Demo.savedIdle
  = runPHPCode (lit "<?php echo 2;") 0 1 Demo.savedIdle.
Proof.
  apply (saved_file_ignores_buffer Demo.savedIdle 0 1).
  - vm_compute. discriminate.
  - reflexivity.
Defined.


(** After a burst in [Demo.helloIdle] the one pending timer is the last
    one. *)
Lemma pending_timer_unique_witness :
  let w := run [DidChangeTextEditorSelection 0; Elapse 100;
                DidChangeTextDocument 0; Elapse 50] Demo.helloIdle in
  timers w = [{| timer_id := 1; due := 1400; timer_editor := 0 |}]
  ∧ timeout w = Some 1%nat
  ∧ 1400 <= now w + 300.
Proof.
  intros w.
  assert (timers w = [{| timer_id := 1; due := 1400; timer_editor := 0 |}]) as Ht
    by (vm_compute; reflexivity).
  split; [exact Ht |].
  apply (proj2 (pending_timer_unique (lit "/ext/dist") 1000
                  (fun _ => Demo.helloEditor) (Some 0%nat) ∅ ∅
                  [DidChangeTextEditorSelection 0; Elapse 100;
                   DidChangeTextDocument 0; Elapse 50])
           {| timer_id := 1; due := 1400; timer_editor := 0 |}).
  change ({| timer_id := 1; due := 1400; timer_editor := 0 |} ∈ timers w).
  rewrite Ht. constructor.
Defined.

(** In [Demo.helloRunning] a failed run is reported first and the greeting
    second: the greeting is what stays on screen. *)
Lemma last_completion_wins_witness :
  let w1 := snd (runPHPCode_done 0 0 (lit "/ext/dist/quickphp.php") true (lit "php")
                   1350 None [] (lit "Parse error") Demo.helloRunning) in
  let w2 := snd (runPHPCode_done 0 0 (lit "/ext/dist/quickphp.php") true (lit "php")
                   1300 None (lit "Hello, QuickPHP!") [] w1) in
  map contentText (decorations w2)
  = [lit " // Hello, QuickPHP! (Execution Time: 0.00s)"].
Proof.
  intros w1 w2. subst w2 w1.
  assert (Demo.helloRunning =
          run [DidChangeTextEditorSelection 0; Elapse 300; TimerElapsed 0]
            (initial (lit "/ext/dist") 1000 (fun _ => Demo.helloEditor)
               (Some 0%nat) ∅ ∅)) as -> by (vm_compute; reflexivity).
  destruct (last_completion_wins (lit "/ext/dist") 1000 (fun _ => Demo.helloEditor)
              (Some 0%nat) ∅ ∅
              [DidChangeTextEditorSelection 0; Elapse 300; TimerElapsed 0]
              0 0 (lit "/ext/dist/quickphp.php") true (lit "php") 1350
              None [] (lit "Parse error")
              0 0 (lit "/ext/dist/quickphp.php") true (lit "php") 1300
              (lit "Hello, QuickPHP!") Demo.helloLine)
    as (a & Hd & _ & _ & _ & Hc).
  - vm_compute. discriminate.
  - vm_compute. reflexivity.
  - cbv zeta in Hd. rewrite Hd. cbn [map]. rewrite Hc.
    vm_compute. reflexivity.
Defined.

(** An indented comment that mentions a variable passes; a bare [echo]
    does not. *)
Lemma heuristic_on_whole_line_witness :
  looksEvaluable (trim (lit "   // total in $sum  ")) = true
  ∧ looksEvaluable (trim (lit "  echo   ")) = false.
Proof.
  split.
  - apply (proj2 (heuristic_on_whole_line (lit "   // total in $sum  "))).
    right. right. reflexivity.
  - destruct (looksEvaluable (trim (lit "  echo   "))) eqn:H; [| reflexivity].
    apply (proj1 (heuristic_on_whole_line (lit "  echo   "))) in H.
    destruct H as [(t & Hne & Ht) | [H | H]];
      [| vm_compute in H; discriminate H | vm_compute in H; discriminate H].
    vm_compute in Ht. discriminate Ht.
Defined.

(** The file of the user is as it was after [Scenes.busyDay]. *)
Lemma only_temp_files_touched_witness :
  files (run Scenes.busyDay
           (initial (lit "/ext/dist") 1000 (fun _ => Demo.helloEditor) (Some 0%nat)
              ∅ Scenes.withUserFile)) !! Scenes.userFile
  = Some (lit "<?php print_r($_GET);").
Proof.
  rewrite only_temp_files_touched.
  - apply lookup_singleton_eq.
  - vm_compute. discriminate.
  - vm_compute. discriminate.
Defined.

End Samples.
